(** * FSQ: a filesystem-backed message queue (FileStorageQueue/fsq.h)

    A shallow embedding of class [fsq::FSQ<CONFIG>] and of the part of the
    world it acts on: the working directory on disk, the clock readings it
    is handed, and the calls it makes to the user-supplied processor.

    The in-memory object is a record with the fields of the C++ class; each
    member function is a function on the world (object, disk, event log).
    The worker thread is cut at its lock boundaries, so that public
    operations of other threads can be interleaved between its phases. *)

From stdpp Require Import base option numbers list strings sorting gmap.
From Stdlib Require Import ZArith Lia Ascii String.

Local Open Scope Z_scope.
Local Open Scope string_scope.
Local Open Scope list_scope.

(** ** 64-bit unsigned arithmetic

    [uint64_t] values are integers in [0, 2^64); [+=] wraps around. *)

Definition uint64_modulus : Z := 2 ^ 64.

Definition wrap64 (z : Z) : Z := z mod uint64_modulus.

Definition add64 (a b : Z) : Z := wrap64 (a + b).

(** ** status.h: the queue status

    [T_TIMESTAMP] is an integer type of the time manager; timestamps are
    modelled as [Z]. *)

Record FileInfo := mkFileInfo {
  name : string;
  full_path_name : string;
  timestamp : Z;
  size : Z
}.

Record QueueFinalizedFilesStatus := mkFinalized {
  queue : list FileInfo;
  total_size : Z
}.

Record QueueStatus := mkStatus {
  appended_file_size : Z;
  appended_file_timestamp : Z;
  finalized : QueueFinalizedFilesStatus
}.

#[global] Instance FileInfo_eq_dec : EqDecision FileInfo.
Proof. solve_decision. Defined.

(** The status of a default-constructed [QueueStatus]. *)
Definition empty_status : QueueStatus :=
  mkStatus 0 0 (mkFinalized [] 0).

(** [enum class FileProcessingResult]; the last name is spelled as in the
    source. *)
Inductive FileProcessingResult :=
| Success
| SuccessAndMoved
| Unavailable
| FailureNeerRetry.

(** ** The file system

    The disk maps a full path name to the contents of the file. *)

Module FileSystem.

Fixpoint ends_with_slash (s : string) : bool :=
  match s with
  | EmptyString => false
  | String a EmptyString => bool_decide (a = "/"%char)
  | String _ s' => ends_with_slash s'
  end.

(** Modelled from the spec: [join_path(dir, name) -> path] of the
    filesystem adapter (Bricks/file/file.h is not part of the sources);
    the directory and the base name are joined by one slash. *)
Definition JoinPath (path_name base_name : string) : string :=
  if ends_with_slash path_name then path_name +:+ base_name
  else path_name +:+ "/" +:+ base_name.

(** [strip_prefix p s] is [Some r] when [s = p +:+ r]. *)
Fixpoint strip_prefix (p s : string) : option string :=
  match p with
  | EmptyString => Some s
  | String a p' =>
      match s with
      | EmptyString => None
      | String b s' => if decide (a = b) then strip_prefix p' s' else None
      end
  end.

Fixpoint has_slash (s : string) : bool :=
  match s with
  | EmptyString => false
  | String a s' => if decide (a = "/"%char) then true else has_slash s'
  end.

(** The base name of [p] when [p] is a file directly inside [dir]. *)
Definition base_name_in (dir p : string) : option string :=
  match strip_prefix (JoinPath dir "") p with
  | Some b => if has_slash b then None else Some b
  | None => None
  end.

(** Modelled from the spec: [scan_dir(path, visitor)], the visitor is
    called once per name found, non-recursively.  The names are returned
    in the order in which the visitor sees them. *)
Definition ScanDir (dir : string) (d : gmap string string) : list string :=
  omap (fun e => base_name_in dir e.1) (map_to_list d).

(** Modelled from the spec: [size(path) -> u64]. *)
Definition GetFileSize (p : string) (d : gmap string string) : Z :=
  match d !! p with
  | Some contents => wrap64 (Z.of_nat (String.length contents))
  | None => 0
  end.

(** Modelled from the spec: [remove(path)]. *)
Definition RemoveFile (p : string) (d : gmap string string)
  : gmap string string :=
  delete p d.

(** Modelled from the spec: [rename(src, dst)], a single rename inside
    one directory; a missing source leaves the disk as it is. *)
Definition RenameFile (src dst : string) (d : gmap string string)
  : gmap string string :=
  match d !! src with
  | Some contents => <[dst := contents]> (delete src d)
  | None => d
  end.

(** Modelled from the spec: [open_append(path) -> handle]; the file is
    created empty when it does not exist yet. *)
Definition OpenOutputFile (p : string) (d : gmap string string)
  : gmap string string :=
  match d !! p with
  | Some _ => d
  | None => <[p := ""]> d
  end.

(** Modelled from the spec: [append(handle, bytes)]. *)
Definition WriteToFile (p bytes : string) (d : gmap string string)
  : gmap string string :=
  match d !! p with
  | Some contents => <[p := contents +:+ bytes]> d
  | None => d
  end.

End FileSystem.

(** ** The configuration: strategies the engine is parameterised by

    [FSQ<CONFIG>] inherits its naming, finalization and append policies from
    [CONFIG]; here they are the fields of a class.  The purge policy is
    inherited too, but no member function of [FSQ] calls it; it is modelled
    on its own further down. *)

(** A [FileNamingSchema]: [ParseFileName] returns the timestamp through its
    second argument when it returns true. *)
Record FileNamingSchema := mkNaming {
  GenerateFileName : Z -> string;
  ParseFileName : string -> option Z
}.

Class CONFIG := {
  T_MESSAGE : Type;
  (* T_FILE_NAMING_STRATEGY *)
  current : FileNamingSchema;
  finalized_naming : FileNamingSchema;
  (* T_FILE_APPEND_POLICY: the size a message is accounted with, and the
     bytes AppendToFile writes to the open file *)
  MessageSizeInBytes : T_MESSAGE -> Z;
  AppendToFile : T_MESSAGE -> string;
  (* T_FINALIZE_POLICY *)
  ShouldFinalize : QueueStatus -> Z -> bool
}.

(** ** The engine state *)

(** What the engine does that the disk and the object do not show. *)
Inductive Event :=
| NotifyAll                                   (* queue_status_condition_variable_.notify_all() *)
| OnFileReady (file : FileInfo) (now : Z).    (* processor_.OnFileReady(file, now) *)

#[global] Instance Event_eq_dec : EqDecision Event.
Proof. solve_decision. Defined.

(** The processor: its verdict may depend on what it has seen so far. *)
Definition T_PROCESSOR : Type :=
  list Event -> FileInfo -> Z -> FileProcessingResult.

(** The data members of [FSQ].  [current_file_] is the [unique_ptr] to the
    open output file: [None] is [nullptr], [Some p] a handle opened on
    path [p]. *)
Record FSQ := mkFSQ {
  status_ : QueueStatus;
  status_ready_ : bool;
  working_directory_ : string;
  current_file_ : option string;
  current_file_name_ : string;
  force_processing_ : bool;
  force_worker_thread_shutdown_ : bool
}.

Record World := mkWorld {
  fsq : FSQ;
  disk : gmap string string;
  events : list Event
}.

Definition set_status (s : QueueStatus) (q : FSQ) : FSQ :=
  mkFSQ s (status_ready_ q) (working_directory_ q) (current_file_ q)
        (current_file_name_ q) (force_processing_ q)
        (force_worker_thread_shutdown_ q).

Definition set_status_ready (b : bool) (q : FSQ) : FSQ :=
  mkFSQ (status_ q) b (working_directory_ q) (current_file_ q)
        (current_file_name_ q) (force_processing_ q)
        (force_worker_thread_shutdown_ q).

Definition set_current_file (f : option string) (n : string) (q : FSQ) : FSQ :=
  mkFSQ (status_ q) (status_ready_ q) (working_directory_ q) f n
        (force_processing_ q) (force_worker_thread_shutdown_ q).

Definition set_force_processing (b : bool) (q : FSQ) : FSQ :=
  mkFSQ (status_ q) (status_ready_ q) (working_directory_ q) (current_file_ q)
        (current_file_name_ q) b (force_worker_thread_shutdown_ q).

Definition set_shutdown (b : bool) (q : FSQ) : FSQ :=
  mkFSQ (status_ q) (status_ready_ q) (working_directory_ q) (current_file_ q)
        (current_file_name_ q) (force_processing_ q) b.

Definition notify_all (w : World) : World :=
  mkWorld (fsq w) (disk w) (events w ++ [NotifyAll]).

(** The sum of the sizes of the queued files, in unbounded arithmetic. *)
Definition sum_sizes (l : list FileInfo) : Z :=
  foldr (fun f acc => size f + acc) 0 l.

(** The files the processor was called on, oldest call first. *)
Definition processor_calls (l : list Event) : list FileInfo :=
  omap (fun e => match e with OnFileReady f _ => Some f | NotifyAll => None end) l.

(** Modelled from the spec: the order of [FileInfo] (status.h is not part
    of the sources): by timestamp ascending, ties broken by base name
    lexicographically. *)
Definition FileInfo_le (a b : FileInfo) : Prop :=
  timestamp a < timestamp b
  \/ (timestamp a = timestamp b /\ String.leb (name a) (name b) = true).

#[global] Instance FileInfo_le_dec : RelDecision FileInfo_le.
Proof. intros a b. unfold FileInfo_le. apply _. Defined.

(** What a call that may block or throw has done so far: it has returned
    a value, it is still waiting on the condition variable, or it has left
    by an exception. *)
Inductive Outcome (A : Type) :=
| Returns (a : A)
| Waits
| Throws.

Arguments Returns {A} a.
Arguments Waits {A}.
Arguments Throws {A}.

(** ** The member functions of [FSQ] *)

Section Engine.

Context `{cfg : CONFIG}.

(** The constructor: a fresh object on [working_directory]; the worker
    thread it starts is the one of [WorkerStartup] and [WorkerLoop]. *)
Definition FSQ_new (working_directory : string) : FSQ :=
  mkFSQ empty_status false working_directory None "" false false.

(** [ScanDir(f)]: the files of the working directory whose names [f]
    accepts, with their timestamps and sizes, sorted. *)
Definition ScanDir (f : string -> option Z) (w : World) : list FileInfo :=
  let dir := working_directory_ (fsq w) in
  merge_sort FileInfo_le
    (omap (fun file_name =>
             match f file_name with
             | Some t =>
                 Some (mkFileInfo file_name
                         (FileSystem.JoinPath dir file_name)
                         t
                         (FileSystem.GetFileSize
                            (FileSystem.JoinPath dir file_name) (disk w)))
             | None => None
             end)
          (FileSystem.ScanDir dir (disk w))).

(** [GetQueueStatus()].  The caller checks [status_ready_] under the lock
    when it enters, and again each time the condition variable wakes it
    up; [wakeups] are the states of the object it finds at its successive
    wake-ups.  The loop looks at nothing but [status_ready_]. *)
Fixpoint GetQueueStatus (q : FSQ) (wakeups : list FSQ) : Outcome QueueStatus :=
  if status_ready_ q then Returns (status_ q)
  else match wakeups with
       | [] => Waits
       | q' :: rest => GetQueueStatus q' rest
       end.

(** The [finalized_file_info] that [FinalizeCurrentFile] builds for the
    open file. *)
Definition finalized_file_info (q : FSQ) : FileInfo :=
  let st := status_ q in
  let finalized_file_name :=
    GenerateFileName finalized_naming (appended_file_timestamp st) in
  mkFileInfo finalized_file_name
             (FileSystem.JoinPath (working_directory_ q) finalized_file_name)
             (appended_file_timestamp st)
             (appended_file_size st).

(** [FinalizeCurrentFile(lock)], called with the status mutex held. *)
Definition FinalizeCurrentFile_locked (w : World) : World :=
  match current_file_ (fsq w) with
  | None => w
  | Some _ =>
      let q := fsq w in
      let st := status_ q in
      let d := FileSystem.RenameFile (current_file_name_ q)
                                     (full_path_name (finalized_file_info q))
                                     (disk w) in
      let st' :=
        mkStatus 0 0
                 (mkFinalized (queue (finalized st) ++ [finalized_file_info q])
                              (total_size (finalized st))) in
      notify_all
        (mkWorld (set_current_file None "" (set_status st' q)) d (events w))
  end.

(** The current file of [w] is finalized in [w']: it is closed, renamed
    to its finalized name, and queued last. *)
Definition Finalized (w w' : World) : Prop :=
  is_Some (current_file_ (fsq w))
  /\ current_file_ (fsq w') = None
  /\ queue (finalized (status_ (fsq w')))
     = queue (finalized (status_ (fsq w))) ++ [finalized_file_info (fsq w)]
  /\ disk w' = FileSystem.RenameFile (current_file_name_ (fsq w))
                 (full_path_name (finalized_file_info (fsq w))) (disk w).

(** [FinalizeCurrentFile()]: takes the lock when a file is open. *)
Definition FinalizeCurrentFile (w : World) : World :=
  match current_file_ (fsq w) with
  | Some _ => FinalizeCurrentFile_locked w
  | None => w
  end.

(** [EnsureCurrentFileIsOpen(message_size_in_bytes, now)]; the size is
    not used. *)
Definition EnsureCurrentFileIsOpen (message_size_in_bytes now : Z) (w : World)
  : World :=
  match current_file_ (fsq w) with
  | Some _ => w
  | None =>
      let q := fsq w in
      let st := status_ q in
      let file_name :=
        FileSystem.JoinPath (working_directory_ q)
                            (GenerateFileName current now) in
      mkWorld
        (set_status (mkStatus (appended_file_size st) now (finalized st))
                    (set_current_file (Some file_name) file_name q))
        (FileSystem.OpenOutputFile file_name (disk w))
        (events w)
  end.

(** The two statements of [PushMessage] between opening the file and
    consulting the finalization policy: the append and the accounting. *)
Definition AppendAndAccount (message : T_MESSAGE) (w : World) : World :=
  let q := fsq w in
  let st := status_ q in
  let d := match current_file_ q with
           | Some p => FileSystem.WriteToFile p (AppendToFile message) (disk w)
           | None => disk w
           end in
  mkWorld
    (set_status (mkStatus (add64 (appended_file_size st)
                                 (MessageSizeInBytes message))
                          (appended_file_timestamp st)
                          (finalized st)) q)
    d (events w).

(** [PushMessage(message)], with [now] the reading of the clock.  The two
    assertions of the source hold here: the file is open after
    [EnsureCurrentFileIsOpen], and opening a file on this disk does not
    fail. *)
Definition PushMessage (message : T_MESSAGE) (now : Z) (w : World) : World :=
  if force_worker_thread_shutdown_ (fsq w) then w
  else
    let message_size_in_bytes := MessageSizeInBytes message in
    let w1 := EnsureCurrentFileIsOpen message_size_in_bytes now w in
    let w2 := AppendAndAccount message w1 in
    if ShouldFinalize (status_ (fsq w2)) now then FinalizeCurrentFile w2
    else w2.

(** [ForceProcessing(force_finalize_current_file)]. *)
Definition ForceProcessing (force_finalize_current_file : bool) (w : World)
  : World :=
  let w1 :=
    if force_finalize_current_file
       || bool_decide (queue (finalized (status_ (fsq w))) = [])
    then match current_file_ (fsq w) with
         | Some _ => FinalizeCurrentFile_locked w
         | None => w
         end
    else w in
  notify_all (mkWorld (set_force_processing true (fsq w1)) (disk w1) (events w1)).

(** The body of the two loops of [RemoveAllFSQFiles]. *)
Definition remove_files (l : list FileInfo) (d : gmap string string)
  : gmap string string :=
  foldl (fun d file => FileSystem.RemoveFile (full_path_name file) d) d l.

(** [RemoveAllFSQFiles()]: a [const] member function; each of the two
    scans reads the disk as it is when the scan runs. *)
Definition RemoveAllFSQFiles (w : World) : World :=
  let d1 := remove_files (ScanDir (ParseFileName finalized_naming) w) (disk w) in
  let w1 := mkWorld (fsq w) d1 (events w) in
  let d2 := remove_files (ScanDir (ParseFileName current) w1) d1 in
  mkWorld (fsq w) d2 (events w).

(** The destructor, up to the hand-over of the worker thread. *)
Definition FSQ_delete (w : World) : World :=
  let w1 := notify_all (mkWorld (set_shutdown true (fsq w)) (disk w) (events w)) in
  mkWorld (set_current_file None (current_file_name_ (fsq w1)) (fsq w1))
          (disk w1) (events w1).

End Engine.

(** ** The worker thread

    [WorkerThread()] is cut where it takes and releases the status mutex:
    the startup scan (steps 1 to 3), and, for each round of the loop of
    step 4, the locked wait that picks the next file, the call of the
    processor outside the lock, and the locked block that follows it. *)

Section Worker.

Context `{cfg : CONFIG}.

(** Steps 1/4 to 3/4. The list of the current files on disk is computed
    and dropped. *)
Definition WorkerStartup (w : World) : World :=
  let finalized_files_on_disk := ScanDir (ParseFileName finalized_naming) w in
  let total :=
    foldl (fun acc file => add64 acc (size file)) 0 finalized_files_on_disk in
  let st := status_ (fsq w) in
  let w1 :=
    mkWorld (set_status (mkStatus (appended_file_size st)
                                  (appended_file_timestamp st)
                                  (mkFinalized finalized_files_on_disk total))
                        (fsq w))
            (disk w) (events w) in
  let current_files_on_disk := ScanDir (ParseFileName current) w1 in
  notify_all (mkWorld (set_status_ready true (fsq w1)) (disk w1) (events w1)).

(** The predicate the worker waits for. *)
Definition predicate (q : FSQ) : bool :=
  if force_worker_thread_shutdown_ q then true
  else if force_processing_ q then true
  else if negb (bool_decide (queue (finalized (status_ q)) = [])) then true
  else false.

(** What the worker leaves the locked block at the top of the loop with. *)
Inductive Picked :=
| PickWaits                                (* the predicate is false *)
| PickReturns                              (* shutdown: the thread returns *)
| PickNext (next_file : option FileInfo).

Definition WorkerPick (q : FSQ) : Picked :=
  if negb (predicate q) then PickWaits
  else if force_worker_thread_shutdown_ q then PickReturns
  else PickNext (head (queue (finalized (status_ q)))).

(** The call of the processor, outside the lock. *)
Definition WorkerCall (processor_ : T_PROCESSOR) (next_file : FileInfo)
           (now : Z) (w : World) : FileProcessingResult * World :=
  (processor_ (events w) next_file now,
   mkWorld (fsq w) (disk w) (events w ++ [OnFileReady next_file now])).

(** The locked block after the call.  Its guard is the constant [true]:
    the result is not looked at.  [None] is a failed assertion: the head
    of the queue is not the file that was handed to the processor. *)
Definition WorkerApply (result : FileProcessingResult) (next_file : FileInfo)
           (w : World) : option World :=
  let st := status_ (fsq w) in
  match queue (finalized st) with
  | front :: rest =>
      if decide (next_file = front)
      then Some (mkWorld
                   (set_status
                      (mkStatus (appended_file_size st)
                                (appended_file_timestamp st)
                                (mkFinalized rest (total_size (finalized st))))
                      (fsq w))
                   (disk w) (events w))
      else None
  | [] => None
  end.

(** How one round of the loop ends. *)
Inductive Round :=
| RoundWaits (w : World)
| RoundReturns (w : World)
| RoundAgain (w : World)
| RoundAborts.

(** One round with no other thread in between. *)
Definition WorkerRound (processor_ : T_PROCESSOR) (now : Z) (w : World)
  : Round :=
  match WorkerPick (fsq w) with
  | PickWaits => RoundWaits w
  | PickReturns => RoundReturns w
  | PickNext None => RoundAgain w
  | PickNext (Some next_file) =>
      let '(result, w1) := WorkerCall processor_ next_file now w in
      match WorkerApply result next_file w1 with
      | Some w2 => RoundAgain w2
      | None => RoundAborts
      end
  end.

(** The loop of step 4/4, for at most [fuel] rounds and a clock that
    stands still; [RoundAgain w] when the rounds are used up with the
    loop about to go round again in [w]. *)
Fixpoint WorkerLoop (fuel : nat) (processor_ : T_PROCESSOR) (now : Z)
         (w : World) : Round :=
  match fuel with
  | O => RoundAgain w
  | S fuel' =>
      match WorkerRound processor_ now w with
      | RoundAgain w' => WorkerLoop fuel' processor_ now w'
      | r => r
      end
  end.

End Worker.

(** ** The default strategies

    strategies.h and config.h are not part of the sources; the strategies
    the tests configure are modelled from the specification. *)

Module strategy.

Definition digit_of (d : Z) : ascii := ascii_of_N (Z.to_N (48 + d mod 10)).

(** [width] decimal digits of [t], most significant first, zero padded. *)
Fixpoint fixed_width_decimal (width : nat) (t : Z) (acc : string) : string :=
  match width with
  | O => acc
  | S k => fixed_width_decimal k (t / 10) (String (digit_of t) acc)
  end.

Definition value_of (a : ascii) : option Z :=
  let n := Z.of_N (N_of_ascii a) in
  if bool_decide (48 <= n <= 57) then Some (n - 48) else None.

(** Reads exactly [width] decimal digits and returns the rest. *)
Fixpoint read_decimal (width : nat) (s : string) (acc : Z)
  : option (Z * string) :=
  match width with
  | O => Some (acc, s)
  | S k =>
      match s with
      | EmptyString => None
      | String a s' =>
          match value_of a with
          | Some d => read_decimal k s' (10 * acc + d)
          | None => None
          end
      end
  end.

(** Modelled from the spec: the default naming, a fixed prefix, the
    timestamp as 20 zero-padded decimal digits, and a fixed suffix;
    parsing fails on every name that is not of this exact form. *)
Definition GenerateName (prefix suffix : string) (t : Z) : string :=
  prefix +:+ fixed_width_decimal 20 t "" +:+ suffix.

Definition ParseName (prefix suffix : string) (s : string) : option Z :=
  match FileSystem.strip_prefix prefix s with
  | Some rest =>
      match read_decimal 20 rest 0 with
      | Some (t, tail) => if decide (tail = suffix) then Some t else None
      | None => None
      end
  | None => None
  end.

Definition FileNaming (prefix suffix : string) : FileNamingSchema :=
  mkNaming (GenerateName prefix suffix) (ParseName prefix suffix).

(** Modelled from the spec: the simple finalization policy, with the
    thresholds [S0], [A0] for an empty finalized queue and [S1], [A1] for
    a backlog. *)
Definition SimpleFinalizationPolicy (S0 A0 S1 A1 : Z)
           (status : QueueStatus) (now : Z) : bool :=
  let age := now - appended_file_timestamp status in
  if bool_decide (queue (finalized status) = [])
  then bool_decide (S0 <= appended_file_size status) || bool_decide (A0 <= age)
  else bool_decide (S1 <= appended_file_size status) || bool_decide (A1 <= age).

(** Modelled from the spec: the overflow predicate of the simple purge
    policy, more than [B_max] bytes or more than [N_max] files. *)
Definition SimplePurgePolicy (B_max N_max : Z) (status : QueueStatus) : bool :=
  bool_decide (B_max < total_size (finalized status))
  || bool_decide (N_max < Z.of_nat (List.length (queue (finalized status)))).

(** Modelled from the spec: a message is its payload; it is written
    followed by a one-byte separator and costs its length plus one. *)
Definition AppendToFileWithSeparator (separator : string) (message : string)
  : string :=
  message +:+ separator.

Definition MessageSizeWithSeparator (message : string) : Z :=
  wrap64 (Z.of_nat (String.length message) + 1).

End strategy.

(** [MockConfig] of the test: newline separator, finalization after 20
    bytes or 10 seconds without a backlog and after 100 bytes or 60 seconds
    with one. *)
#[global] Instance MockConfig : CONFIG := {|
  T_MESSAGE := string;
  current := strategy.FileNaming "current-" ".bin";
  finalized_naming := strategy.FileNaming "finalized-" ".bin";
  MessageSizeInBytes := strategy.MessageSizeWithSeparator;
  AppendToFile := strategy.AppendToFileWithSeparator (String "010"%char "");
  ShouldFinalize := strategy.SimpleFinalizationPolicy 20 10000 100 60000
|}.

(** The processor of the test: it accepts every file. *)
Definition MockProcessor : T_PROCESSOR := fun _ _ _ => Success.

Definition kTestDir : string := "build/".

Definition fresh (d : gmap string string) : World :=
  mkWorld (FSQ_new kTestDir) d [].

(** ** Scenarios

    Concrete worlds the engine is run on below. *)

Module Scenario.

(** A processor that is never available. *)
Definition OfflineProcessor : T_PROCESSOR := fun _ _ _ => Unavailable.

(** One finalized file of five bytes left on disk by an earlier run. *)
Definition one_finalized : gmap string string :=
  {[ "build/finalized-00000000000000000007.bin" := "hello" ]}.

(** Two finalized files left on disk by an earlier run. *)
Definition two_finalized : gmap string string :=
  <[ "build/finalized-00000000000000000002.bin" := "bb" ]>
    {[ "build/finalized-00000000000000000001.bin" := "a" ]}.

(** Two current files left on disk by earlier runs. *)
Definition two_current : gmap string string :=
  <[ "build/current-00000000000000000002.bin" := "bb" ]>
    {[ "build/current-00000000000000000001.bin" := "a" ]}.

Definition file7 : FileInfo :=
  mkFileInfo "finalized-00000000000000000007.bin"
             "build/finalized-00000000000000000007.bin" 7 5.

Definition file1 : FileInfo :=
  mkFileInfo "finalized-00000000000000000001.bin"
             "build/finalized-00000000000000000001.bin" 1 1.

Definition file2 : FileInfo :=
  mkFileInfo "finalized-00000000000000000002.bin"
             "build/finalized-00000000000000000002.bin" 2 2.

(** The engine after its startup scan of each of these directories. *)
Definition started (d : gmap string string) : World :=
  WorkerStartup (fresh d).

(** One message pushed into an empty queue and finalized by force. *)
Definition pushed_and_finalized : World :=
  ForceProcessing true (PushMessage "foo" 1001 (started ∅)).

(** Three files finalized back to back, with no round of the worker in
    between. *)
Definition three_finalized : World :=
  let w := ForceProcessing true (PushMessage "foo" 1001 (started ∅)) in
  let w := ForceProcessing true (PushMessage "bar" 1002 w) in
  ForceProcessing true (PushMessage "baz" 1003 w).

(** The pushes of the smoke test. *)
Definition smoke_test : World :=
  let w := PushMessage "foo" 1001 (started ∅) in
  let w := PushMessage "bar" 1002 w in
  PushMessage "baz" 1003 w.

(** A fresh object whose destructor runs before the worker has scanned. *)
Definition deleted_early : World := FSQ_delete (fresh ∅).

End Scenario.

(** ** Interleavings

    The calls other threads make on the object and the phases of the
    worker thread, as the steps of one machine.  A round of the worker is
    one step: no call comes between its three phases. *)

Section Machine.

Context `{cfg : CONFIG}.

Inductive Step :=
| StepPushMessage (message : T_MESSAGE) (now : Z)
| StepForceProcessing (force_finalize_current_file : bool)
| StepRemoveAllFSQFiles
| StepDelete
| StepWorkerStartup
| StepWorkerRound (processor_ : T_PROCESSOR) (now : Z).

(** The world a round leaves behind; a failed assertion leaves none, and
    the world it started in stands for it. *)
Definition after_round (r : Round) (w : World) : World :=
  match r with
  | RoundWaits w' => w'
  | RoundReturns w' => w'
  | RoundAgain w' => w'
  | RoundAborts => w
  end.

Definition step (s : Step) (w : World) : World :=
  match s with
  | StepPushMessage message now => PushMessage message now w
  | StepForceProcessing b => ForceProcessing b w
  | StepRemoveAllFSQFiles => RemoveAllFSQFiles w
  | StepDelete => FSQ_delete w
  | StepWorkerStartup => WorkerStartup w
  | StepWorkerRound processor_ now => after_round (WorkerRound processor_ now w) w
  end.

Definition run (l : list Step) (w : World) : World :=
  foldl (fun w s => step s w) w l.

(** The world after a round that hands [next_file], the head of the queue
    with [rest] behind it, to the processor. *)
Definition popped (next_file : FileInfo) (rest : list FileInfo) (now : Z)
           (w : World) : World :=
  let st := status_ (fsq w) in
  mkWorld (set_status (mkStatus (appended_file_size st)
                                (appended_file_timestamp st)
                                (mkFinalized rest (total_size (finalized st))))
                      (fsq w))
          (disk w)
          (events w ++ [OnFileReady next_file now]).

(** The steps of the threads that use the object, as opposed to those of
    its worker thread. *)
Definition is_public (s : Step) : bool :=
  match s with
  | StepWorkerStartup | StepWorkerRound _ _ => false
  | _ => true
  end.

Definition is_startup (s : Step) : bool :=
  match s with
  | StepWorkerStartup => true
  | _ => false
  end.

(** [w'] differs from [w] as a call of a user can make it differ: flags
    are set but not cleared, the queue has grown at its back, and the
    working directory, the total size and the calls of the processor are
    the same. *)
Definition appends_only (w w' : World) : Prop :=
  working_directory_ (fsq w') = working_directory_ (fsq w)
  /\ (status_ready_ (fsq w) = true -> status_ready_ (fsq w') = true)
  /\ (force_processing_ (fsq w) = true -> force_processing_ (fsq w') = true)
  /\ (force_worker_thread_shutdown_ (fsq w) = true ->
      force_worker_thread_shutdown_ (fsq w') = true)
  /\ total_size (finalized (status_ (fsq w')))
     = total_size (finalized (status_ (fsq w)))
  /\ processor_calls (events w') = processor_calls (events w)
  /\ exists extra,
      queue (finalized (status_ (fsq w')))
      = queue (finalized (status_ (fsq w))) ++ extra.






End Machine.

(** * Properties *)

(** ** 64-bit sums *)


Lemma wrap64_small (z : Z) : 0 <= z < uint64_modulus -> wrap64 z = z.
Proof. intros Hz. unfold wrap64. apply Z.mod_small. exact Hz. Qed.

Lemma add64_wrap_l (a b : Z) : add64 (wrap64 a) b = wrap64 (a + b).
Proof.
  unfold add64, wrap64, uint64_modulus.
  rewrite Zplus_mod_idemp_l. reflexivity.
Qed.

(** Accumulating sizes with [+=] from an accumulator that is already
    reduced gives the unbounded sum, reduced. *)
Lemma foldl_add64_sum (l : list FileInfo) (acc : Z) :
  foldl (fun a file => add64 a (size file)) (wrap64 acc) l
  = wrap64 (acc + sum_sizes l).
Proof.
  revert acc. induction l as [|f l IH]; intros acc; simpl.
  - f_equal. lia.
  - rewrite add64_wrap_l, IH. f_equal. lia.
Qed.

(** ** The file system *)

Lemma remove_files_subseteq (l : list FileInfo) (d : gmap string string) :
  remove_files l d ⊆ d.
Proof.
  revert d. induction l as [|f l IH]; intros d; simpl.
  - reflexivity.
  - etrans; [apply IH|]. apply delete_subseteq.
Qed.

Lemma remove_files_lookup (l : list FileInfo) (d : gmap string string)
      (f : FileInfo) :
  f ∈ l -> remove_files l d !! full_path_name f = None.
Proof.
  revert d. induction l as [|g l IH]; intros d Hin; simpl.
  - inversion Hin.
  - destruct (decide (f ∈ l)) as [Hl|Hl]; [apply IH, Hl|].
    apply elem_of_cons in Hin as [->|Hin]; [|contradiction].
    eapply lookup_weaken_None; [|apply remove_files_subseteq].
    apply lookup_delete_eq.
Qed.

(** ** The engine *)

Section EngineFacts.

Context `{cfg : CONFIG}.

Lemma FinalizeCurrentFile_locked_open (w : World) :
  is_Some (current_file_ (fsq w)) ->
  Finalized w (FinalizeCurrentFile_locked w)
  /\ total_size (finalized (status_ (fsq (FinalizeCurrentFile_locked w))))
     = total_size (finalized (status_ (fsq w)))
  /\ events (FinalizeCurrentFile_locked w) = events w ++ [NotifyAll].
Proof.
  intros Hopen. unfold Finalized, FinalizeCurrentFile_locked.
  destruct (current_file_ (fsq w)) as [p|] eqn:Hp.
  - simpl. repeat split; eauto.
  - destruct Hopen as [p' Hp']. discriminate.
Qed.

Lemma FinalizeCurrentFile_unlocked (w : World) :
  FinalizeCurrentFile w = FinalizeCurrentFile_locked w.
Proof.
  unfold FinalizeCurrentFile, FinalizeCurrentFile_locked.
  destruct (current_file_ (fsq w)); reflexivity.
Qed.

(** A queue does not equal itself with one more entry. *)
Lemma queue_grows (l : list FileInfo) (f : FileInfo) : l ++ [f] <> l.
Proof.
  intros Heq. apply (f_equal List.length) in Heq.
  rewrite length_app in Heq. simpl in Heq. lia.
Qed.

Lemma Finalized_open (w w' : World) :
  Finalized w w' -> is_Some (current_file_ (fsq w)).
Proof. intros [Hopen _]. exact Hopen. Qed.

Lemma not_Finalized_same_queue (w w' : World) :
  queue (finalized (status_ (fsq w'))) = queue (finalized (status_ (fsq w))) ->
  ~ Finalized w w'.
Proof.
  intros Heq (_ & _ & Hq & _). rewrite Heq in Hq.
  symmetry in Hq. exact (queue_grows _ _ Hq).
Qed.

Lemma EnsureCurrentFileIsOpen_size (n now : Z) (w : World) :
  appended_file_size (status_ (fsq (EnsureCurrentFileIsOpen n now w)))
  = appended_file_size (status_ (fsq w)).
Proof.
  unfold EnsureCurrentFileIsOpen.
  destruct (current_file_ (fsq w)); reflexivity.
Qed.

Lemma EnsureCurrentFileIsOpen_queue (n now : Z) (w : World) :
  finalized (status_ (fsq (EnsureCurrentFileIsOpen n now w)))
  = finalized (status_ (fsq w)).
Proof.
  unfold EnsureCurrentFileIsOpen.
  destruct (current_file_ (fsq w)); reflexivity.
Qed.

Lemma OpenOutputFile_is_Some (p : string) (d : gmap string string) :
  is_Some (FileSystem.OpenOutputFile p d !! p).
Proof.
  unfold FileSystem.OpenOutputFile.
  destruct (d !! p) as [c|] eqn:Hp.
  - rewrite Hp. eauto.
  - rewrite lookup_insert_eq. eauto.
Qed.

Lemma WriteToFile_lookup (p bytes : string) (d : gmap string string) :
  FileSystem.WriteToFile p bytes d !! p
  = (fun contents => contents +:+ bytes) <$> d !! p.
Proof.
  unfold FileSystem.WriteToFile.
  destruct (d !! p) as [c|] eqn:Hp.
  - rewrite lookup_insert_eq. reflexivity.
  - rewrite Hp. reflexivity.
Qed.

Lemma WriteToFile_lookup_ne (p p' bytes : string) (d : gmap string string) :
  p <> p' -> FileSystem.WriteToFile p bytes d !! p' = d !! p'.
Proof.
  intros Hne. unfold FileSystem.WriteToFile.
  destruct (d !! p) as [c|]; [|reflexivity].
  apply lookup_insert_ne. exact Hne.
Qed.

End EngineFacts.

(** ** The public operations *)

Section PublicOperations.

Context `{cfg : CONFIG}.

(** C7. For every message and every state of an engine that is not shut
    down, [PushMessage] first makes sure a current file is open: an open
    file is kept as it is, and when none is open a file named after the
    clock reading [now] is created and [now] becomes the timestamp of the
    current file.  The bytes of the message, as the append policy writes
    them, are then appended to that file and to no other, and
    [appended_file_size] grows by the size the append policy gives for
    the message (by 64-bit addition, which is the exact sum whenever the
    sum fits in 64 bits).  The finalization policy is then asked about the
    updated status with the same [now], and the current file is finalized
    if and only if it says so. *)
Theorem PushMessage_appends_then_finalizes
        (message : T_MESSAGE) (now : Z) (w : World) :
  force_worker_thread_shutdown_ (fsq w) = false ->
  let cost := MessageSizeInBytes message in
  let w1 := EnsureCurrentFileIsOpen cost now w in
  let w2 := AppendAndAccount message w1 in
  let w3 := PushMessage message now w in
  let created :=
    FileSystem.JoinPath (working_directory_ (fsq w))
                        (GenerateFileName current now) in
  (is_Some (current_file_ (fsq w)) -> w1 = w)
  /\ (current_file_ (fsq w) = None ->
      current_file_ (fsq w1) = Some created
      /\ current_file_name_ (fsq w1) = created
      /\ appended_file_timestamp (status_ (fsq w1)) = now
      /\ is_Some (disk w1 !! created))
  /\ (exists p,
        current_file_ (fsq w1) = Some p
        /\ current_file_ (fsq w2) = Some p
        /\ disk w2 !! p
           = (fun contents => contents +:+ AppendToFile message) <$> disk w1 !! p
        /\ forall p', p <> p' -> disk w2 !! p' = disk w1 !! p')
  /\ appended_file_size (status_ (fsq w2))
     = add64 (appended_file_size (status_ (fsq w))) cost
  /\ (0 <= appended_file_size (status_ (fsq w)) + cost < uint64_modulus ->
      appended_file_size (status_ (fsq w2))
      = appended_file_size (status_ (fsq w)) + cost)
  /\ appended_file_timestamp (status_ (fsq w2))
     = appended_file_timestamp (status_ (fsq w1))
  /\ finalized (status_ (fsq w2)) = finalized (status_ (fsq w))
  /\ (ShouldFinalize (status_ (fsq w2)) now = true <-> Finalized w2 w3)
  /\ (ShouldFinalize (status_ (fsq w2)) now = false <-> w3 = w2).
Proof.
  intros Hrun cost w1 w2 w3 created.
  assert (Hopen1 : exists p, current_file_ (fsq w1) = Some p).
  { subst w1. unfold EnsureCurrentFileIsOpen.
    destruct (current_file_ (fsq w)) as [p|] eqn:Hp; simpl; eauto. }
  assert (Hsize : appended_file_size (status_ (fsq w2))
                  = add64 (appended_file_size (status_ (fsq w))) cost).
  { subst w2 w1. simpl. rewrite EnsureCurrentFileIsOpen_size. reflexivity. }
  assert (Hopen2 : current_file_ (fsq w2) = current_file_ (fsq w1))
    by reflexivity.
  assert (Hpush : w3 = if ShouldFinalize (status_ (fsq w2)) now
                       then FinalizeCurrentFile_locked w2 else w2).
  { subst w3. unfold PushMessage. rewrite Hrun.
    rewrite FinalizeCurrentFile_unlocked. reflexivity. }
  split; [|split; [|split; [|split; [|split; [|split; [|split; [|split]]]]]]].
  - intros [p Hp]. subst w1. unfold EnsureCurrentFileIsOpen.
    rewrite Hp. reflexivity.
  - intros Hnone. subst w1 created. unfold EnsureCurrentFileIsOpen.
    rewrite Hnone. simpl. repeat split.
    apply OpenOutputFile_is_Some.
  - destruct Hopen1 as [p Hp]. exists p.
    split; [exact Hp|]. split; [rewrite Hopen2; exact Hp|].
    subst w2. unfold AppendAndAccount. simpl. rewrite Hp. split.
    + apply WriteToFile_lookup.
    + intros p' Hne. apply WriteToFile_lookup_ne. exact Hne.
  - exact Hsize.
  - intros Hfits. rewrite Hsize. unfold add64. apply wrap64_small, Hfits.
  - reflexivity.
  - subst w2 w1. simpl. apply EnsureCurrentFileIsOpen_queue.
  - rewrite Hpush. split.
    + intros Hfire. rewrite Hfire.
      apply FinalizeCurrentFile_locked_open.
      rewrite Hopen2. destruct Hopen1 as [p Hp]. rewrite Hp. eauto.
    + intros Hfin. destruct (ShouldFinalize (status_ (fsq w2)) now);
        [reflexivity|].
      exfalso. revert Hfin. apply not_Finalized_same_queue. reflexivity.
  - rewrite Hpush. split.
    + intros Hquiet. rewrite Hquiet. reflexivity.
    + intros Hsame.
      destruct (ShouldFinalize (status_ (fsq w2)) now); [|reflexivity].
      exfalso.
      assert (Hfin : Finalized w2 (FinalizeCurrentFile_locked w2)).
      { apply FinalizeCurrentFile_locked_open.
        rewrite Hopen2. destruct Hopen1 as [p Hp]. rewrite Hp. eauto. }
      revert Hfin. apply not_Finalized_same_queue.
      rewrite Hsame. reflexivity.
Qed.

(** C8. For every message, [PushMessage] on an engine whose shutdown flag
    is set returns at once: the object, the disk and the event log are
    all what they were, so nothing is written and no file is created or
    opened. *)
Theorem PushMessage_after_shutdown
        (message : T_MESSAGE) (now : Z) (w : World) :
  force_worker_thread_shutdown_ (fsq w) = true ->
  PushMessage message now w = w.
Proof.
  intros Hdown. unfold PushMessage. rewrite Hdown. reflexivity.
Qed.

(** C9. [ForceProcessing(force_finalize_current_file)] finalizes the
    current file exactly when one is open and either the argument is true
    or the finalized queue is empty; otherwise the status, the open file
    and the disk stay as they are.  In every case the call ends by
    setting [force_processing_] and notifying the condition variable the
    worker waits on. *)
Theorem ForceProcessing_finalizes_then_signals
        (force_finalize_current_file : bool) (w : World) :
  let w' := ForceProcessing force_finalize_current_file w in
  (Finalized w w'
   <-> is_Some (current_file_ (fsq w))
       /\ (force_finalize_current_file = true
           \/ queue (finalized (status_ (fsq w))) = []))
  /\ (~ Finalized w w' ->
      status_ (fsq w') = status_ (fsq w)
      /\ current_file_ (fsq w') = current_file_ (fsq w)
      /\ current_file_name_ (fsq w') = current_file_name_ (fsq w)
      /\ disk w' = disk w
      /\ events w' = events w ++ [NotifyAll])
  /\ force_processing_ (fsq w') = true
  /\ (exists before, events w' = before ++ [NotifyAll])
  /\ force_worker_thread_shutdown_ (fsq w')
     = force_worker_thread_shutdown_ (fsq w).
Proof.
  intros w'. subst w'. unfold ForceProcessing.
  destruct (current_file_ (fsq w)) as [p|] eqn:Hp.
  - destruct (force_finalize_current_file
              || bool_decide (queue (finalized (status_ (fsq w))) = []))
      eqn:Hcond.
    + assert (Hopen : is_Some (current_file_ (fsq w))) by (rewrite Hp; eauto).
      destruct (FinalizeCurrentFile_locked_open w Hopen)
        as ((_ & Hclosed & Hq & Hd) & _ & Hev).
      assert (Hfin : Finalized w
                (notify_all
                   (mkWorld
                      (set_force_processing true
                         (fsq (FinalizeCurrentFile_locked w)))
                      (disk (FinalizeCurrentFile_locked w))
                      (events (FinalizeCurrentFile_locked w))))).
      { unfold Finalized. simpl. auto. }
      split; [|split; [|split; [|split]]].
      * split; [|intros _; exact Hfin].
        intros _. split; [eauto|].
        apply orb_true_iff in Hcond as [Hb|Hb]; [left; exact Hb|].
        right. apply bool_decide_eq_true in Hb. exact Hb.
      * intros Hnot. contradiction.
      * reflexivity.
      * simpl. eauto.
      * unfold FinalizeCurrentFile_locked. rewrite Hp. reflexivity.
    + apply orb_false_iff in Hcond as [Hb Hq].
      apply bool_decide_eq_false in Hq.
      split; [|split; [|split; [|split]]].
      * split.
        -- intros Hfin. exfalso. revert Hfin.
           apply not_Finalized_same_queue. reflexivity.
        -- intros [_ [Hb'|Hq']]; [congruence|contradiction].
      * intros _. simpl. auto.
      * reflexivity.
      * simpl. eauto.
      * reflexivity.
  - assert (Hsame :
      (if force_finalize_current_file
          || bool_decide (queue (finalized (status_ (fsq w))) = [])
       then w else w) = w) by (destruct (_ || _); reflexivity).
    rewrite Hsame.
    split; [|split; [|split; [|split]]].
    + split.
      * intros [[p' Hp'] _]. congruence.
      * intros [[p' Hp'] _]. congruence.
    + intros _. simpl. auto.
    + reflexivity.
    + simpl. eauto.
    + reflexivity.
Qed.

Lemma RemoveAllFSQFiles_object (w : World) :
  fsq (RemoveAllFSQFiles w) = fsq w.
Proof. reflexivity. Qed.

(** C10. [RemoveAllFSQFiles] only removes files from disk.  The object is
    left as it is, with its finalized queue and total size, the size and
    timestamp of the current file, the name of the current file and its
    open handle, and the [status_ready_] flag; nothing is notified; and
    every file still on disk was there before with the same contents.  A
    later [GetQueueStatus] therefore reports what it would have reported
    before, the removed finalized files included. *)
Theorem RemoveAllFSQFiles_keeps_object (w : World) :
  fsq (RemoveAllFSQFiles w) = fsq w
  /\ events (RemoveAllFSQFiles w) = events w
  /\ disk (RemoveAllFSQFiles w) ⊆ disk w
  /\ (forall file,
        file ∈ ScanDir (ParseFileName finalized_naming) w ->
        disk (RemoveAllFSQFiles w) !! full_path_name file = None)
  /\ (forall wakeups,
        GetQueueStatus (fsq (RemoveAllFSQFiles w)) wakeups
        = GetQueueStatus (fsq w) wakeups).
Proof.
  split; [reflexivity|]. split; [reflexivity|]. split; [|split].
  - unfold RemoveAllFSQFiles. simpl.
    etrans; apply remove_files_subseteq.
  - intros file Hin. unfold RemoveAllFSQFiles. simpl.
    eapply lookup_weaken_None; [|apply remove_files_subseteq].
    apply remove_files_lookup, Hin.
  - intros wakeups. rewrite RemoveAllFSQFiles_object. reflexivity.
Qed.

End PublicOperations.

(** [PushMessage] of ["foo"] at time 1001 into the empty queue of the test:
    the engine is running, and the four bytes are accounted for. *)
Lemma PushMessage_appends_then_finalizes_witness :
  force_worker_thread_shutdown_ (fsq (Scenario.started ∅)) = false
  /\ appended_file_size
       (status_ (fsq (AppendAndAccount (cfg := MockConfig) "foo"
                        (EnsureCurrentFileIsOpen
                           (MessageSizeInBytes (CONFIG := MockConfig) "foo") 1001
                           (Scenario.started ∅)))))
     = add64 (appended_file_size (status_ (fsq (Scenario.started ∅))))
             (MessageSizeInBytes (CONFIG := MockConfig) "foo").
Proof.
  split; [reflexivity|].
  exact (proj1 (proj2 (proj2 (proj2
           (PushMessage_appends_then_finalizes
              (cfg := MockConfig) "foo" 1001 (Scenario.started ∅) eq_refl))))).
Defined.

(** [PushMessage] after the destructor has set the shutdown flag. *)
Lemma PushMessage_after_shutdown_witness :
  force_worker_thread_shutdown_ (fsq Scenario.deleted_early) = true
  /\ PushMessage (cfg := MockConfig) "foo" 1001 Scenario.deleted_early
     = Scenario.deleted_early.
Proof.
  split; [reflexivity|].
  apply (PushMessage_after_shutdown (cfg := MockConfig)
           "foo" 1001 Scenario.deleted_early).
  reflexivity.
Defined.

(** The smoke test of the repository, up to the call that forces the
    processing: twelve bytes in the current file and an empty queue. *)
Example smoke_test_status :
  GetQueueStatus (fsq Scenario.smoke_test) []
  = Returns (mkStatus 12 1001 (mkFinalized [] 0)).
Proof. reflexivity. Qed.

(** The rest of the smoke test: the processor is handed the file named
    after the first push, with the three messages in it. *)
Example smoke_test_delivery :
  processor_calls
    (events match WorkerRound MockProcessor 1010
                    (ForceProcessing false Scenario.smoke_test) with
            | RoundAgain w => w
            | _ => Scenario.smoke_test
            end)
  = [mkFileInfo "finalized-00000000000000001001.bin"
                "build/finalized-00000000000000001001.bin" 1001 12]
  /\ disk (ForceProcessing false Scenario.smoke_test)
       !! "build/finalized-00000000000000001001.bin"
     = Some (String.concat (String "010"%char "") ["foo"; "bar"; "baz"; ""]).
Proof. vm_compute. split; reflexivity. Qed.

(** [RemoveAllFSQFiles] after a forced finalization: the file is gone from
    the disk and still in the status. *)
Example RemoveAllFSQFiles_status :
  disk (RemoveAllFSQFiles Scenario.pushed_and_finalized)
    !! "build/finalized-00000000000000001001.bin" = None
  /\ disk Scenario.pushed_and_finalized
       !! "build/finalized-00000000000000001001.bin" <> None
  /\ GetQueueStatus (fsq (RemoveAllFSQFiles Scenario.pushed_and_finalized)) []
     = Returns (mkStatus 0 0
                  (mkFinalized
                     [mkFileInfo "finalized-00000000000000001001.bin"
                                 "build/finalized-00000000000000001001.bin"
                                 1001 4] 0)).
Proof. vm_compute. repeat split. discriminate. Qed.

(** ** The worker thread *)

Section WorkerFacts.

Context `{cfg : CONFIG}.

(** The startup scan leaves the disk as it is. *)
Lemma WorkerStartup_disk (w : World) : disk (WorkerStartup w) = disk w.
Proof. reflexivity. Qed.

(** After the startup scan the total size is the 64-bit sum of the sizes
    of the queued files. *)
Lemma WorkerStartup_total_size (w : World) :
  total_size (finalized (status_ (fsq (WorkerStartup w))))
  = wrap64 (sum_sizes (queue (finalized (status_ (fsq (WorkerStartup w)))))).
Proof.
  unfold WorkerStartup. simpl.
  change 0 with (wrap64 0) at 1. rewrite foldl_add64_sum. reflexivity.
Qed.

Lemma WorkerStartup_ready (w : World) :
  status_ready_ (fsq (WorkerStartup w)) = true.
Proof. reflexivity. Qed.

(** The locked block after the call does the same for every verdict. *)
Lemma WorkerApply_ignores_result
      (r r' : FileProcessingResult) (next_file : FileInfo) (w : World) :
  WorkerApply r next_file w = WorkerApply r' next_file w.
Proof. reflexivity. Qed.

(** When it goes through, it pops the head and touches nothing else. *)
Lemma WorkerApply_pops
      (r : FileProcessingResult) (next_file : FileInfo) (w w' : World) :
  WorkerApply r next_file w = Some w' ->
  queue (finalized (status_ (fsq w)))
  = next_file :: queue (finalized (status_ (fsq w')))
  /\ total_size (finalized (status_ (fsq w')))
     = total_size (finalized (status_ (fsq w)))
  /\ disk w' = disk w
  /\ events w' = events w.
Proof.
  unfold WorkerApply.
  destruct (queue (finalized (status_ (fsq w)))) as [|front rest];
    [discriminate|].
  destruct (decide (next_file = front)) as [->|]; [|discriminate].
  intros [= <-]. simpl. auto.
Qed.

(** [GetQueueStatus] returns the status of the first state it finds
    ready, and keeps waiting as long as it finds none. *)
Lemma GetQueueStatus_ready (q : FSQ) (wakeups : list FSQ) :
  status_ready_ q = true -> GetQueueStatus q wakeups = Returns (status_ q).
Proof. intros Hr. destruct wakeups; simpl; rewrite Hr; reflexivity. Qed.

Lemma GetQueueStatus_not_ready (q q' : FSQ) (wakeups : list FSQ) :
  status_ready_ q = false ->
  GetQueueStatus q (q' :: wakeups) = GetQueueStatus q' wakeups.
Proof. intros Hr. simpl. rewrite Hr. reflexivity. Qed.

Lemma GetQueueStatus_waits (q : FSQ) (wakeups : list FSQ) :
  Forall (fun q' => status_ready_ q' = false) (q :: wakeups) ->
  GetQueueStatus q wakeups = Waits.
Proof.
  revert q. induction wakeups as [|q' l IH]; intros q Hall.
  - apply Forall_cons in Hall as [Hq _]. simpl. rewrite Hq. reflexivity.
  - apply Forall_cons in Hall as [Hq Hall].
    rewrite GetQueueStatus_not_ready by exact Hq. apply IH, Hall.
Qed.

(** A round of a running worker with a file at the head of the queue:
    whatever the processor answers, the file is popped, and the total
    size and the disk stay as they are. *)
Lemma WorkerRound_pops_head
      (processor_ : T_PROCESSOR) (now : Z) (w : World)
      (next_file : FileInfo) (rest : list FileInfo) :
  force_worker_thread_shutdown_ (fsq w) = false ->
  queue (finalized (status_ (fsq w))) = next_file :: rest ->
  exists w',
    WorkerRound processor_ now w = RoundAgain w'
    /\ queue (finalized (status_ (fsq w'))) = rest
    /\ total_size (finalized (status_ (fsq w')))
       = total_size (finalized (status_ (fsq w)))
    /\ disk w' = disk w
    /\ events w' = events w ++ [OnFileReady next_file now].
Proof.
  intros Hrun Hq.
  unfold WorkerRound, WorkerPick, predicate. rewrite Hrun, Hq.
  assert (Hne : bool_decide (next_file :: rest = []) = false)
    by (apply bool_decide_eq_false; discriminate).
  rewrite Hne. destruct (force_processing_ (fsq w)); simpl.
  all: unfold WorkerApply; simpl; rewrite Hq.
  all: destruct (decide (next_file = next_file)) as [_|Hne']; [|contradiction].
  all: eexists; split; [reflexivity|]; simpl; auto.
Qed.

(** Finalizing a file that is not empty takes the total size away from the
    sum of the queued sizes when the two agreed before. *)
Lemma sum_sizes_snoc (l : list FileInfo) (f : FileInfo) :
  sum_sizes (l ++ [f]) = sum_sizes l + size f.
Proof. induction l as [|g l IH]; simpl; [lia|]. rewrite IH. lia. Qed.

Lemma FinalizeCurrentFile_locked_total_size (w : World) :
  is_Some (current_file_ (fsq w)) ->
  appended_file_size (status_ (fsq w)) <> 0 ->
  total_size (finalized (status_ (fsq w)))
  = sum_sizes (queue (finalized (status_ (fsq w)))) ->
  total_size (finalized (status_ (fsq (FinalizeCurrentFile_locked w))))
  <> sum_sizes (queue (finalized (status_ (fsq (FinalizeCurrentFile_locked w))))).
Proof.
  intros Hopen Hsize Hinv.
  destruct (FinalizeCurrentFile_locked_open w Hopen)
    as ((_ & _ & Hq & _) & Htotal & _).
  rewrite Htotal, Hq, sum_sizes_snoc, Hinv. simpl. lia.
Qed.

(** It has no path that throws, whatever the shutdown flag says. *)
Lemma GetQueueStatus_never_throws (q : FSQ) (wakeups : list FSQ) :
  GetQueueStatus q wakeups <> Throws.
Proof.
  revert q. induction wakeups as [|q' l IH]; intros q; simpl;
    destruct (status_ready_ q); try discriminate. apply IH.
Qed.

End WorkerFacts.

(** ** What the worker does with a verdict, and where the totals go

    Each of the following runs the engine on one of the scenarios above. *)

(** C1. The worker on a [Success] verdict.  One finalized file of five
    bytes is on disk at startup and the processor of the test, which
    always returns [Success], is called on it.  The round pops the file
    from the head of the queue, and that is all: the file is still on
    disk with its contents, and [total_size] is still 5 although the queue
    is empty.  The header of fsq.h says the file is deleted on [Success]. *)
Theorem worker_Success_keeps_file_and_total_size :
  queue (finalized (status_ (fsq (Scenario.started Scenario.one_finalized))))
  = [Scenario.file7]
  /\ total_size
       (finalized (status_ (fsq (Scenario.started Scenario.one_finalized)))) = 5
  /\ MockProcessor (events (Scenario.started Scenario.one_finalized))
                   Scenario.file7 10 = Success
  /\ exists w,
      WorkerRound MockProcessor 10 (Scenario.started Scenario.one_finalized)
      = RoundAgain w
      /\ processor_calls (events w) = [Scenario.file7]
      /\ queue (finalized (status_ (fsq w))) = []
      /\ total_size (finalized (status_ (fsq w))) = 5
      /\ disk w !! full_path_name Scenario.file7 = Some "hello".
Proof.
  split; [reflexivity|]. split; [reflexivity|]. split; [reflexivity|].
  eexists. split; [vm_compute; reflexivity|].
  repeat split.
Qed.

(** C2. [total_size] against the sum of the queued sizes.  After a push of
    ["foo"] into an empty queue and a forced finalization the queue holds
    one file of four bytes and [total_size] is 0; after the worker has
    applied a verdict to the only file of five bytes found at startup the
    queue is empty and [total_size] is 5.  Only the startup scan, which
    adds up the sizes it finds, sets [total_size]. *)
Theorem total_size_is_not_kept_up_to_date :
  (sum_sizes (queue (finalized (status_ (fsq Scenario.pushed_and_finalized)))) = 4
   /\ total_size (finalized (status_ (fsq Scenario.pushed_and_finalized))) = 0)
  /\ (exists w,
        WorkerRound MockProcessor 10 (Scenario.started Scenario.one_finalized)
        = RoundAgain w
        /\ sum_sizes (queue (finalized (status_ (fsq w)))) = 0
        /\ total_size (finalized (status_ (fsq w))) = 5)
  /\ sum_sizes
       (queue (finalized (status_ (fsq (Scenario.started Scenario.one_finalized)))))
     = total_size
         (finalized (status_ (fsq (Scenario.started Scenario.one_finalized)))).
Proof.
  split; [split; reflexivity|]. split; [|reflexivity].
  eexists. split; [vm_compute; reflexivity|].
  split; reflexivity.
Qed.

(** C3. The worker on an [Unavailable] verdict.  Two finalized files are
    on disk at startup and the processor returns [Unavailable] on every
    call; [ForceProcessing] is never called.  The worker pops the first
    file, calls the processor on the second, pops it too, and only then
    waits, with an empty queue.  The header of fsq.h says that processing
    is suspended on [Unavailable] until it is resumed from outside. *)
Theorem worker_Unavailable_moves_on :
  queue (finalized (status_ (fsq (Scenario.started Scenario.two_finalized))))
  = [Scenario.file1; Scenario.file2]
  /\ force_processing_ (fsq (Scenario.started Scenario.two_finalized)) = false
  /\ Scenario.OfflineProcessor
       (events (Scenario.started Scenario.two_finalized)) Scenario.file1 10
     = Unavailable
  /\ (exists w,
        WorkerRound Scenario.OfflineProcessor 10
                    (Scenario.started Scenario.two_finalized)
        = RoundAgain w
        /\ processor_calls (events w) = [Scenario.file1]
        /\ queue (finalized (status_ (fsq w))) = [Scenario.file2])
  /\ (exists w,
        WorkerLoop 3 Scenario.OfflineProcessor 10
                   (Scenario.started Scenario.two_finalized)
        = RoundWaits w
        /\ processor_calls (events w) = [Scenario.file1; Scenario.file2]
        /\ queue (finalized (status_ (fsq w))) = []
        /\ force_processing_ (fsq w) = false).
Proof.
  split; [reflexivity|]. split; [reflexivity|]. split; [reflexivity|].
  split.
  - eexists. split; [vm_compute; reflexivity|]. repeat split.
  - eexists. split; [vm_compute; reflexivity|]. repeat split.
Qed.

(** C4. The startup scan with two current files on disk.  Both are found
    by the scan for current files, and nothing is done with the list: no
    file is renamed, the finalized queue stays empty, and a scan after the
    startup still finds two current files.  The comment on [WorkerThread]
    says all but one are finalized on the spot. *)
Theorem startup_leaves_two_current_files :
  disk (Scenario.started Scenario.two_current) = Scenario.two_current
  /\ status_ready_ (fsq (Scenario.started Scenario.two_current)) = true
  /\ queue (finalized (status_ (fsq (Scenario.started Scenario.two_current))))
     = []
  /\ ScanDir (ParseFileName current) (Scenario.started Scenario.two_current)
     = [mkFileInfo "current-00000000000000000001.bin"
                   "build/current-00000000000000000001.bin" 1 1;
        mkFileInfo "current-00000000000000000002.bin"
                   "build/current-00000000000000000002.bin" 2 2]
  /\ ScanDir (ParseFileName finalized_naming)
             (Scenario.started Scenario.two_current)
     = [].
Proof. repeat split. Qed.

(** C5. Three finalizations back to back, no delivery, and a purge policy
    that allows two files.  After the third finalization the queue holds
    all three files, oldest first, all three are on disk, and the overflow
    predicate of the policy holds: nothing has been purged.  The header of
    fsq.h says the oldest files are purged when the policy dictates so. *)
Theorem three_finalizations_purge_nothing :
  map name (queue (finalized (status_ (fsq Scenario.three_finalized))))
  = ["finalized-00000000000000001001.bin";
     "finalized-00000000000000001002.bin";
     "finalized-00000000000000001003.bin"]
  /\ processor_calls (events Scenario.three_finalized) = []
  /\ strategy.SimplePurgePolicy 1000 2 (status_ (fsq Scenario.three_finalized))
     = true
  /\ Forall (fun file => is_Some (disk Scenario.three_finalized
                                    !! full_path_name file))
            (queue (finalized (status_ (fsq Scenario.three_finalized)))).
Proof.
  split; [reflexivity|]. split; [reflexivity|]. split; [reflexivity|].
  vm_compute. repeat constructor; eexists; reflexivity.
Qed.

(** C6. [GetQueueStatus] while the engine shuts down.  The destructor runs
    before the worker has finished its scan, and a caller of
    [GetQueueStatus] that is waiting is woken up by it: the caller finds
    the shutdown flag set and [status_ready_] false, and waits again,
    however often it is woken; once the worker has set [status_ready_] it
    returns the status.  It throws in neither case.  The comment in the
    loop asks for the shutdown flag to be handled there by an exception. *)
Theorem GetQueueStatus_waits_through_shutdown :
  force_worker_thread_shutdown_ (fsq Scenario.deleted_early) = true
  /\ status_ready_ (fsq Scenario.deleted_early) = false
  /\ GetQueueStatus (FSQ_new kTestDir) [fsq Scenario.deleted_early] = Waits
  /\ GetQueueStatus (FSQ_new kTestDir)
                    [fsq Scenario.deleted_early; fsq Scenario.deleted_early;
                     fsq Scenario.deleted_early] = Waits
  /\ GetQueueStatus (FSQ_new kTestDir)
                    [fsq Scenario.deleted_early;
                     fsq (WorkerStartup Scenario.deleted_early)]
     = Returns empty_status
  /\ (forall q wakeups, GetQueueStatus q wakeups <> Throws).
Proof.
  repeat split. intros q wakeups. apply GetQueueStatus_never_throws.
Qed.

(** * Further properties of the engine *)

(** ** Paths and directory scans *)

Lemma string_app_cons (a : ascii) (s r : string) :
  String a s +:+ r = String a (s +:+ r).
Proof. reflexivity. Qed.

Lemma string_app_nil_r (s : string) : s +:+ "" = s.
Proof.
  induction s as [|a s IH]; [reflexivity|].
  rewrite string_app_cons, IH. reflexivity.
Qed.

Lemma string_app_assoc (a b c : string) : (a +:+ b) +:+ c = a +:+ b +:+ c.
Proof.
  induction a as [|x a IH]; [reflexivity|].
  rewrite !string_app_cons, IH. reflexivity.
Qed.

Lemma strip_prefix_app (p r : string) :
  FileSystem.strip_prefix p (p +:+ r) = Some r.
Proof.
  induction p as [|a p IH]; [reflexivity|].
  rewrite string_app_cons. simpl.
  destruct (decide (a = a)) as [_|Hne]; [exact IH|contradiction].
Qed.

Lemma strip_prefix_Some (p s r : string) :
  FileSystem.strip_prefix p s = Some r -> s = p +:+ r.
Proof.
  revert s. induction p as [|a p IH]; intros s; simpl.
  - intros [= ->]. reflexivity.
  - destruct s as [|b s]; [discriminate|].
    destruct (decide (a = b)) as [->|]; [|discriminate].
    intros Hs. rewrite (IH _ Hs), string_app_cons. reflexivity.
Qed.

Lemma JoinPath_split (dir base : string) :
  FileSystem.JoinPath dir base = FileSystem.JoinPath dir "" +:+ base.
Proof.
  unfold FileSystem.JoinPath. destruct (FileSystem.ends_with_slash dir).
  - rewrite string_app_nil_r. reflexivity.
  - rewrite string_app_assoc. reflexivity.
Qed.

Lemma base_name_in_Some (dir p base : string) :
  FileSystem.base_name_in dir p = Some base
  <-> p = FileSystem.JoinPath dir base /\ FileSystem.has_slash base = false.
Proof.
  unfold FileSystem.base_name_in. split.
  - destruct (FileSystem.strip_prefix _ p) as [b|] eqn:Hs; [|discriminate].
    destruct (FileSystem.has_slash b) eqn:Hb; [discriminate|].
    intros [= <-]. split; [|exact Hb].
    rewrite JoinPath_split. apply strip_prefix_Some, Hs.
  - intros [-> Hb]. rewrite (JoinPath_split dir base), strip_prefix_app, Hb.
    reflexivity.
Qed.

(** The names a scan of the directory visits are the slash-free base names
    of the files that lie in it. *)
Lemma FileSystem_ScanDir_elem_of (dir base : string) (d : gmap string string) :
  base ∈ FileSystem.ScanDir dir d
  <-> FileSystem.has_slash base = false
      /\ is_Some (d !! FileSystem.JoinPath dir base).
Proof.
  unfold FileSystem.ScanDir. rewrite list_elem_of_omap. split.
  - intros ([p c] & Hin & Hb). simpl in Hb.
    apply base_name_in_Some in Hb as [-> Hb].
    apply elem_of_map_to_list in Hin. split; [exact Hb|]. eauto.
  - intros [Hb [c Hc]]. exists (FileSystem.JoinPath dir base, c). split.
    + apply elem_of_map_to_list, Hc.
    + simpl. apply base_name_in_Some. auto.
Qed.

Lemma FileInfo_le_total : Total FileInfo_le.
Proof.
  intros a b. unfold FileInfo_le.
  destruct (Z.lt_trichotomy (timestamp a) (timestamp b)) as [Hlt|[Heq|Hgt]].
  - left. left. exact Hlt.
  - destruct (String.leb_total (name a) (name b)) as [Hab|Hba].
    + left. right. auto.
    + right. right. auto.
  - right. left. lia.
Qed.

Section ScanDirFacts.

Context `{cfg : CONFIG}.

Lemma ScanDir_entry (f : string -> option Z) (w : World) (info : FileInfo) :
  info ∈ ScanDir f w ->
  FileSystem.has_slash (name info) = false
  /\ is_Some (disk w !! FileSystem.JoinPath (working_directory_ (fsq w))
                                            (name info))
  /\ f (name info) = Some (timestamp info)
  /\ full_path_name info
     = FileSystem.JoinPath (working_directory_ (fsq w)) (name info)
  /\ size info = FileSystem.GetFileSize (full_path_name info) (disk w).
Proof.
  unfold ScanDir. rewrite merge_sort_Permutation, list_elem_of_omap.
  intros (file_name & Hin & Hf).
  apply FileSystem_ScanDir_elem_of in Hin as [Hslash Hfile].
  destruct (f file_name) as [t|] eqn:Ht; [|discriminate].
  injection Hf as <-. simpl. auto.
Qed.

Lemma ScanDir_finds (f : string -> option Z) (w : World)
      (file_name : string) (t : Z) :
  FileSystem.has_slash file_name = false ->
  is_Some (disk w !! FileSystem.JoinPath (working_directory_ (fsq w)) file_name) ->
  f file_name = Some t ->
  mkFileInfo file_name
             (FileSystem.JoinPath (working_directory_ (fsq w)) file_name)
             t
             (FileSystem.GetFileSize
                (FileSystem.JoinPath (working_directory_ (fsq w)) file_name)
                (disk w))
  ∈ ScanDir f w.
Proof.
  intros Hslash Hfile Hf.
  unfold ScanDir. rewrite merge_sort_Permutation, list_elem_of_omap.
  exists file_name. split.
  - apply FileSystem_ScanDir_elem_of. auto.
  - rewrite Hf. reflexivity.
Qed.

(** X1. [ScanDir(f)] returns exactly the files of the working directory
    whose names [f] accepts: each entry carries the base name, the path
    joined from the working directory and the name, the timestamp [f]
    read from the name, and the size of the file on disk; and every
    accepted name of the directory has its entry. *)
Theorem ScanDir_elem_of (f : string -> option Z) (w : World) (info : FileInfo) :
  info ∈ ScanDir f w
  <-> FileSystem.has_slash (name info) = false
      /\ is_Some (disk w !! FileSystem.JoinPath (working_directory_ (fsq w))
                                               (name info))
      /\ f (name info) = Some (timestamp info)
      /\ full_path_name info
         = FileSystem.JoinPath (working_directory_ (fsq w)) (name info)
      /\ size info = FileSystem.GetFileSize (full_path_name info) (disk w).
Proof.
  split; [apply ScanDir_entry|].
  intros (Hslash & Hfile & Hf & Hpath & Hsize).
  destruct info as [n p t sz]. simpl in *. subst p sz.
  apply ScanDir_finds; assumption.
Qed.

(** X2. The list [ScanDir(f)] returns is sorted: each entry is followed by
    one that is not before it in the order of [FileInfo], and timestamps
    never decrease along the list. *)
Theorem ScanDir_sorted (f : string -> option Z) (w : World) :
  Sorted FileInfo_le (ScanDir f w)
  /\ StronglySorted (fun a b => timestamp a <= timestamp b) (ScanDir f w).
Proof.
  assert (Hs : Sorted FileInfo_le (ScanDir f w))
    by (unfold ScanDir; apply Sorted_merge_sort; exact FileInfo_le_total).
  split; [exact Hs|].
  apply Sorted_StronglySorted; [intros a b c; lia|].
  induction Hs as [|a l Hs IH Hhd]; constructor; [exact IH|].
  destruct Hhd as [|b l Hab]; constructor.
  destruct Hab as [Hlt|[Heq _]]; lia.
Qed.

End ScanDirFacts.

(** ** The startup scan *)

Lemma GetFileSize_range (p : string) (d : gmap string string) :
  0 <= FileSystem.GetFileSize p d < uint64_modulus.
Proof.
  unfold FileSystem.GetFileSize.
  destruct (d !! p); [|unfold uint64_modulus; lia].
  unfold wrap64. apply Z.mod_pos_bound. unfold uint64_modulus. lia.
Qed.

Lemma sum_sizes_nonneg (l : list FileInfo) :
  Forall (fun file => 0 <= size file) l -> 0 <= sum_sizes l.
Proof.
  induction 1 as [|file l Hfile _ IH]; simpl; lia.
Qed.

Section StartupFacts.

Context `{cfg : CONFIG}.

Lemma ScanDir_sizes (f : string -> option Z) (w : World) :
  Forall (fun file => 0 <= size file) (ScanDir f w).
Proof.
  apply Forall_forall. intros info Hin.
  apply ScanDir_entry in Hin as (_ & _ & _ & _ & ->).
  apply GetFileSize_range.
Qed.

(** X3. The startup scan of the worker replaces the finalized queue by the
    sorted list of the files on disk whose names parse as finalized,
    whatever the queue held before, and sets [total_size] to the 64-bit
    sum of their sizes, which is their exact sum when that is below 2^64.
    It sets [status_ready_] and notifies once; the disk, the accounting of
    the current file, the open file and the other flags are as before. *)
Theorem WorkerStartup_seeds_queue (w : World) :
  let w' := WorkerStartup w in
  queue (finalized (status_ (fsq w')))
  = ScanDir (ParseFileName finalized_naming) w
  /\ total_size (finalized (status_ (fsq w')))
     = wrap64 (sum_sizes (queue (finalized (status_ (fsq w')))))
  /\ (sum_sizes (queue (finalized (status_ (fsq w')))) < uint64_modulus ->
      total_size (finalized (status_ (fsq w')))
      = sum_sizes (queue (finalized (status_ (fsq w')))))
  /\ status_ready_ (fsq w') = true
  /\ events w' = events w ++ [NotifyAll]
  /\ disk w' = disk w
  /\ appended_file_size (status_ (fsq w')) = appended_file_size (status_ (fsq w))
  /\ appended_file_timestamp (status_ (fsq w'))
     = appended_file_timestamp (status_ (fsq w))
  /\ current_file_ (fsq w') = current_file_ (fsq w)
  /\ current_file_name_ (fsq w') = current_file_name_ (fsq w)
  /\ force_processing_ (fsq w') = force_processing_ (fsq w)
  /\ force_worker_thread_shutdown_ (fsq w')
     = force_worker_thread_shutdown_ (fsq w).
Proof.
  intros w'.
  assert (Htotal : total_size (finalized (status_ (fsq w')))
                   = wrap64 (sum_sizes (queue (finalized (status_ (fsq w')))))).
  { subst w'. unfold WorkerStartup. simpl.
    change 0 with (wrap64 0) at 1. rewrite foldl_add64_sum. reflexivity. }
  split; [reflexivity|]. split; [exact Htotal|]. split.
  - intros Hfits. rewrite Htotal. apply wrap64_small. split; [|exact Hfits].
    apply sum_sizes_nonneg. apply (ScanDir_sizes _ w).
  - repeat split.
Qed.

(** X4. A startup on a directory none of whose names parses as finalized,
    the empty directory among them, seeds nothing: [GetQueueStatus] on the
    new object returns the status with every count at zero, without
    waiting.  Current files in the directory make no difference. *)
Theorem startup_without_finalized_files
        (working_directory : string) (d : gmap string string)
        (wakeups : list FSQ) :
  Forall (fun file_name => ParseFileName finalized_naming file_name = None)
         (FileSystem.ScanDir working_directory d) ->
  GetQueueStatus
    (fsq (WorkerStartup (mkWorld (FSQ_new working_directory) d [])))
    wakeups
  = Returns empty_status.
Proof.
  intros Hnone.
  assert (Hscan : ScanDir (ParseFileName finalized_naming)
                          (mkWorld (FSQ_new working_directory) d []) = []).
  { apply elem_of_nil_inv. intros info Hin.
    unfold ScanDir in Hin. rewrite merge_sort_Permutation in Hin.
    apply list_elem_of_omap in Hin as (file_name & Hin & Hf).
    rewrite Forall_forall in Hnone. simpl in Hin.
    rewrite (Hnone _ Hin) in Hf. discriminate. }
  destruct wakeups; simpl; unfold WorkerStartup; rewrite Hscan; reflexivity.
Qed.

End StartupFacts.

(** Two current files and no finalized one in the directory. *)
Lemma startup_without_finalized_files_witness :
  Forall (fun file_name =>
            ParseFileName (finalized_naming (CONFIG := MockConfig)) file_name
            = None)
         (FileSystem.ScanDir kTestDir Scenario.two_current)
  /\ GetQueueStatus
       (fsq (WorkerStartup (cfg := MockConfig)
               (mkWorld (FSQ_new kTestDir) Scenario.two_current [])))
       []
     = Returns empty_status.
Proof.
  assert (Hscan : FileSystem.ScanDir kTestDir Scenario.two_current
                  = ["current-00000000000000000001.bin";
                     "current-00000000000000000002.bin"])
    by (vm_compute; reflexivity).
  assert (H : Forall (fun file_name =>
                ParseFileName (finalized_naming (CONFIG := MockConfig)) file_name
                = None)
              (FileSystem.ScanDir kTestDir Scenario.two_current))
    by (rewrite Hscan; repeat constructor).
  split; [exact H|].
  exact (startup_without_finalized_files (cfg := MockConfig)
           kTestDir Scenario.two_current [] H).
Defined.

(** ** The loop of the worker *)

Lemma processor_calls_app (l1 l2 : list Event) :
  processor_calls (l1 ++ l2) = processor_calls l1 ++ processor_calls l2.
Proof. apply omap_app. Qed.

Lemma processor_calls_OnFileReady (now : Z) (l : list FileInfo) :
  processor_calls (map (fun file => OnFileReady file now) l) = l.
Proof.
  induction l as [|file l IH]; [reflexivity|].
  simpl. unfold processor_calls in *. simpl. rewrite IH. reflexivity.
Qed.

Section LoopFacts.

Context `{cfg : CONFIG}.

Lemma WorkerRound_head (processor_ : T_PROCESSOR) (now : Z) (w : World)
      (next_file : FileInfo) (rest : list FileInfo) :
  force_worker_thread_shutdown_ (fsq w) = false ->
  queue (finalized (status_ (fsq w))) = next_file :: rest ->
  WorkerRound processor_ now w = RoundAgain (popped next_file rest now w).
Proof.
  intros Hrun Hq.
  unfold WorkerRound, WorkerPick, predicate. rewrite Hrun, Hq.
  assert (Hne : bool_decide (next_file :: rest = []) = false)
    by (apply bool_decide_eq_false; discriminate).
  rewrite Hne. destruct (force_processing_ (fsq w)); simpl.
  all: unfold WorkerApply; simpl; rewrite Hq.
  all: destruct (decide (next_file = next_file)) as [_|Hne']; [|contradiction].
  all: reflexivity.
Qed.

Lemma WorkerRound_idle (processor_ : T_PROCESSOR) (now : Z) (w : World) :
  force_worker_thread_shutdown_ (fsq w) = false ->
  force_processing_ (fsq w) = false ->
  queue (finalized (status_ (fsq w))) = [] ->
  WorkerRound processor_ now w = RoundWaits w.
Proof.
  intros Hrun Hforce Hq.
  unfold WorkerRound, WorkerPick, predicate. rewrite Hrun, Hforce, Hq.
  reflexivity.
Qed.

Lemma WorkerRound_forced_idle (processor_ : T_PROCESSOR) (now : Z) (w : World) :
  force_worker_thread_shutdown_ (fsq w) = false ->
  force_processing_ (fsq w) = true ->
  queue (finalized (status_ (fsq w))) = [] ->
  WorkerRound processor_ now w = RoundAgain w.
Proof.
  intros Hrun Hforce Hq.
  unfold WorkerRound, WorkerPick, predicate. rewrite Hrun, Hforce, Hq.
  reflexivity.
Qed.

Lemma WorkerRound_shutdown (processor_ : T_PROCESSOR) (now : Z) (w : World) :
  force_worker_thread_shutdown_ (fsq w) = true ->
  WorkerRound processor_ now w = RoundReturns w.
Proof.
  intros Hdown. unfold WorkerRound, WorkerPick, predicate. rewrite Hdown.
  reflexivity.
Qed.

(** X5. First in, first out.  A running worker that has not been forced
    hands the queued files to the processor one by one, from the head of
    the queue to its end, each exactly once and whatever the verdicts, and
    then waits with an empty queue: one round per file and one more to
    find the queue empty.  The disk and [total_size] are as before. *)
Theorem WorkerLoop_drains_in_order
        (processor_ : T_PROCESSOR) (now : Z) (w : World) :
  force_worker_thread_shutdown_ (fsq w) = false ->
  force_processing_ (fsq w) = false ->
  exists w',
    WorkerLoop (S (List.length (queue (finalized (status_ (fsq w))))))
               processor_ now w
    = RoundWaits w'
    /\ events w'
       = events w ++ map (fun file => OnFileReady file now)
                         (queue (finalized (status_ (fsq w))))
    /\ processor_calls (events w')
       = processor_calls (events w) ++ queue (finalized (status_ (fsq w)))
    /\ queue (finalized (status_ (fsq w'))) = []
    /\ total_size (finalized (status_ (fsq w')))
       = total_size (finalized (status_ (fsq w)))
    /\ disk w' = disk w.
Proof.
  remember (queue (finalized (status_ (fsq w)))) as l eqn:Hl.
  revert w Hl. induction l as [|file rest IH]; intros w Hl Hrun Hforce.
  - exists w. simpl. rewrite WorkerRound_idle by auto.
    rewrite !app_nil_r. repeat split; auto.
  - change (WorkerLoop (S (List.length (file :: rest))) processor_ now w)
      with (match WorkerRound processor_ now w with
            | RoundAgain w' => WorkerLoop (S (List.length rest)) processor_ now w'
            | r => r
            end).
    rewrite (WorkerRound_head processor_ now w file rest) by auto.
    destruct (IH (popped file rest now w)) as (w' & Hloop & Hev & _ & Hq & Ht & Hd);
      [reflexivity|exact Hrun|exact Hforce|].
    exists w'. split; [exact Hloop|].
    assert (Hev' : events w'
                   = events w ++ map (fun f => OnFileReady f now) (file :: rest)).
    { rewrite Hev. simpl. rewrite <- app_assoc. reflexivity. }
    split; [exact Hev'|]. split.
    + rewrite Hev', processor_calls_app, processor_calls_OnFileReady.
      reflexivity.
    + auto.
Qed.

(** X6. Nothing clears [force_processing_].  Once it is set on a running
    engine the loop of the worker never waits again: each round hands the
    head of the queue to the processor while there is one, and goes round
    again at once, also on an empty queue. *)
Theorem WorkerLoop_spins_once_forced
        (processor_ : T_PROCESSOR) (now : Z) (fuel : nat) (w : World) :
  force_worker_thread_shutdown_ (fsq w) = false ->
  force_processing_ (fsq w) = true ->
  exists w',
    WorkerLoop fuel processor_ now w = RoundAgain w'
    /\ force_processing_ (fsq w') = true
    /\ queue (finalized (status_ (fsq w')))
       = drop fuel (queue (finalized (status_ (fsq w))))
    /\ events w'
       = events w ++ map (fun file => OnFileReady file now)
                         (take fuel (queue (finalized (status_ (fsq w)))))
    /\ disk w' = disk w.
Proof.
  revert w. induction fuel as [|fuel IH]; intros w Hrun Hforce.
  - exists w. simpl. rewrite drop_0, app_nil_r. auto.
  - simpl WorkerLoop.
    destruct (queue (finalized (status_ (fsq w)))) as [|file rest] eqn:Hq.
    + rewrite WorkerRound_forced_idle by auto.
      destruct (IH w Hrun Hforce) as (w' & Hloop & Hf & Hq' & Hev & Hd).
      exists w'. rewrite Hq in Hq', Hev.
      rewrite drop_nil in Hq'. rewrite take_nil in Hev. simpl. auto.
    + rewrite (WorkerRound_head processor_ now w file rest) by auto.
      destruct (IH (popped file rest now w) Hrun Hforce)
        as (w' & Hloop & Hf & Hq' & Hev & Hd).
      exists w'. split; [exact Hloop|]. split; [exact Hf|].
      split; [exact Hq'|]. split; [|exact Hd].
      rewrite Hev. simpl. rewrite <- app_assoc. reflexivity.
Qed.

(** X7. The destructor sets the shutdown flag, notifies, and closes the
    current file without finalizing it: the status and the disk are as
    before, so the file keeps its current name.  From then on
    [PushMessage] does nothing, [ForceProcessing] finalizes nothing, and
    the worker returns at its next round without a call to the processor,
    however many files are queued. *)
Theorem FSQ_delete_stops_the_engine
        (w : World) (message : T_MESSAGE) (now : Z) (force : bool)
        (processor_ : T_PROCESSOR) (fuel : nat) :
  let w' := FSQ_delete w in
  force_worker_thread_shutdown_ (fsq w') = true
  /\ current_file_ (fsq w') = None
  /\ status_ (fsq w') = status_ (fsq w)
  /\ disk w' = disk w
  /\ events w' = events w ++ [NotifyAll]
  /\ PushMessage message now w' = w'
  /\ status_ (fsq (ForceProcessing force w')) = status_ (fsq w)
  /\ disk (ForceProcessing force w') = disk w
  /\ WorkerLoop (S fuel) processor_ now w' = RoundReturns w'
  /\ WorkerLoop (S fuel) processor_ now (ForceProcessing force w')
     = RoundReturns (ForceProcessing force w').
Proof.
  intros w'. subst w'.
  split; [reflexivity|]. split; [reflexivity|]. split; [reflexivity|].
  split; [reflexivity|]. split; [reflexivity|]. split; [reflexivity|].
  assert (Hforce : forall b,
            ForceProcessing b (FSQ_delete w)
            = notify_all
                (mkWorld (set_force_processing true (fsq (FSQ_delete w)))
                         (disk w) (events (FSQ_delete w)))).
  { intros b. unfold ForceProcessing. simpl.
    destruct (b || _); reflexivity. }
  rewrite Hforce. split; [reflexivity|]. split; [reflexivity|].
  split; reflexivity.
Qed.

End LoopFacts.

(** The worker on the two files found at startup. *)
Lemma WorkerLoop_drains_in_order_witness :
  force_worker_thread_shutdown_
    (fsq (Scenario.started Scenario.two_finalized)) = false
  /\ force_processing_ (fsq (Scenario.started Scenario.two_finalized)) = false
  /\ exists w',
      WorkerLoop 3 MockProcessor 10 (Scenario.started Scenario.two_finalized)
      = RoundWaits w'
      /\ processor_calls (events w') = [Scenario.file1; Scenario.file2].
Proof.
  split; [reflexivity|]. split; [reflexivity|].
  destruct (WorkerLoop_drains_in_order MockProcessor 10
              (Scenario.started Scenario.two_finalized) eq_refl eq_refl)
    as (w' & Hloop & _ & Hcalls & _).
  exists w'. split; [exact Hloop|exact Hcalls].
Defined.

(** The worker after the forced processing of the smoke test. *)
Lemma WorkerLoop_spins_once_forced_witness :
  force_worker_thread_shutdown_
    (fsq (ForceProcessing false Scenario.smoke_test)) = false
  /\ force_processing_ (fsq (ForceProcessing false Scenario.smoke_test)) = true
  /\ exists w',
      WorkerLoop 5 MockProcessor 1010 (ForceProcessing false Scenario.smoke_test)
      = RoundAgain w'
      /\ force_processing_ (fsq w') = true.
Proof.
  split; [reflexivity|]. split; [reflexivity|].
  destruct (WorkerLoop_spins_once_forced MockProcessor 1010 5
              (ForceProcessing false Scenario.smoke_test) eq_refl eq_refl)
    as (w' & Hloop & Hforce & _).
  exists w'. split; [exact Hloop|exact Hforce].
Defined.

(** ** Series of pushes *)

Section PushFacts.

Context `{cfg : CONFIG}.







End PushFacts.


(** ** What every step keeps *)

Section StepFacts.

Context `{cfg : CONFIG}.

(** A round either leaves the world as it is or pops the head. *)
Lemma WorkerRound_cases (processor_ : T_PROCESSOR) (now : Z) (w : World) :
  (WorkerRound processor_ now w <> RoundAborts
   /\ after_round (WorkerRound processor_ now w) w = w)
  \/ (exists next_file rest,
        force_worker_thread_shutdown_ (fsq w) = false
        /\ queue (finalized (status_ (fsq w))) = next_file :: rest
        /\ WorkerRound processor_ now w = RoundAgain (popped next_file rest now w)).
Proof.
  destruct (force_worker_thread_shutdown_ (fsq w)) eqn:Hrun.
  - left. rewrite WorkerRound_shutdown by exact Hrun. split; [discriminate|reflexivity].
  - destruct (queue (finalized (status_ (fsq w)))) as [|file rest] eqn:Hq.
    + left. destruct (force_processing_ (fsq w)) eqn:Hforce.
      * rewrite WorkerRound_forced_idle by auto. split; [discriminate|reflexivity].
      * rewrite WorkerRound_idle by auto. split; [discriminate|reflexivity].
    + right. exists file, rest. split; [reflexivity|]. split; [reflexivity|].
      apply WorkerRound_head; auto.
Qed.

Lemma appends_only_refl (w : World) : appends_only w w.
Proof.
  unfold appends_only. repeat split; auto.
  exists []. rewrite app_nil_r. reflexivity.
Qed.

Lemma appends_only_trans (w1 w2 w3 : World) :
  appends_only w1 w2 -> appends_only w2 w3 -> appends_only w1 w3.
Proof.
  intros (Hd & Hr & Hf & Hs & Ht & Hc & [e Hq])
         (Hd' & Hr' & Hf' & Hs' & Ht' & Hc' & [e' Hq']).
  unfold appends_only. repeat split; auto; try congruence.
  exists (e ++ e'). rewrite Hq', Hq, app_assoc. reflexivity.
Qed.

Lemma processor_calls_notify (l : list Event) :
  processor_calls (l ++ [NotifyAll]) = processor_calls l.
Proof. rewrite processor_calls_app. simpl. apply app_nil_r. Qed.

Lemma FinalizeCurrentFile_locked_appends_only (w : World) :
  appends_only w (FinalizeCurrentFile_locked w).
Proof.
  unfold FinalizeCurrentFile_locked.
  destruct (current_file_ (fsq w)); [|apply appends_only_refl].
  unfold appends_only. simpl. rewrite processor_calls_notify.
  repeat split; auto. eexists. reflexivity.
Qed.

Lemma EnsureCurrentFileIsOpen_appends_only (n now : Z) (w : World) :
  appends_only w (EnsureCurrentFileIsOpen n now w).
Proof.
  unfold EnsureCurrentFileIsOpen.
  destruct (current_file_ (fsq w)); [apply appends_only_refl|].
  unfold appends_only. simpl. repeat split; auto.
  exists []. rewrite app_nil_r. reflexivity.
Qed.

Lemma AppendAndAccount_appends_only (message : T_MESSAGE) (w : World) :
  appends_only w (AppendAndAccount message w).
Proof.
  unfold appends_only, AppendAndAccount. simpl. repeat split; auto.
  exists []. rewrite app_nil_r. reflexivity.
Qed.

Lemma PushMessage_appends_only (message : T_MESSAGE) (now : Z) (w : World) :
  appends_only w (PushMessage message now w).
Proof.
  unfold PushMessage.
  destruct (force_worker_thread_shutdown_ (fsq w)); [apply appends_only_refl|].
  assert (H2 : appends_only w
                 (AppendAndAccount message
                    (EnsureCurrentFileIsOpen (MessageSizeInBytes message) now w))).
  { eapply appends_only_trans; [apply EnsureCurrentFileIsOpen_appends_only|].
    apply AppendAndAccount_appends_only. }
  destruct (ShouldFinalize _ now); [|exact H2].
  rewrite FinalizeCurrentFile_unlocked.
  eapply appends_only_trans; [exact H2|].
  apply FinalizeCurrentFile_locked_appends_only.
Qed.

Lemma ForceProcessing_appends_only (force : bool) (w : World) :
  appends_only w (ForceProcessing force w).
Proof.
  unfold ForceProcessing.
  set (w1 := if force || _ then _ else w).
  assert (H1 : appends_only w w1).
  { subst w1. destruct (force || _); [|apply appends_only_refl].
    destruct (current_file_ (fsq w)); [|apply appends_only_refl].
    apply FinalizeCurrentFile_locked_appends_only. }
  eapply appends_only_trans; [exact H1|].
  unfold appends_only. simpl. rewrite processor_calls_notify.
  repeat split; auto. exists []. rewrite app_nil_r. reflexivity.
Qed.

Lemma public_appends_only (s : Step) (w : World) :
  is_public s = true -> appends_only w (step s w).
Proof.
  destruct s as [message now|force| | | |processor_ now]; simpl;
    intros Hpublic; try discriminate.
  - apply PushMessage_appends_only.
  - apply ForceProcessing_appends_only.
  - unfold appends_only. simpl. repeat split; auto.
    exists []. rewrite app_nil_r. reflexivity.
  - unfold appends_only. simpl. rewrite processor_calls_notify.
    repeat split; auto. exists []. rewrite app_nil_r. reflexivity.
Qed.

(** What a step does to the parts of the object that the properties below
    follow: the flags, the working directory, the total size, the queue
    and the calls of the processor. *)
Lemma step_effect (s : Step) (w : World) :
  working_directory_ (fsq (step s w)) = working_directory_ (fsq w)
  /\ (status_ready_ (fsq w) = true -> status_ready_ (fsq (step s w)) = true)
  /\ (force_processing_ (fsq w) = true ->
      force_processing_ (fsq (step s w)) = true)
  /\ (force_worker_thread_shutdown_ (fsq w) = true ->
      force_worker_thread_shutdown_ (fsq (step s w)) = true)
  /\ (is_startup s = false ->
      total_size (finalized (status_ (fsq (step s w))))
      = total_size (finalized (status_ (fsq w))))
  /\ (is_startup s = false ->
      exists extra,
        processor_calls (events (step s w))
          ++ queue (finalized (status_ (fsq (step s w))))
        = (processor_calls (events w) ++ queue (finalized (status_ (fsq w))))
            ++ extra)
  /\ (is_public s = true ->
      processor_calls (events (step s w)) = processor_calls (events w)
      /\ exists extra,
          queue (finalized (status_ (fsq (step s w))))
          = queue (finalized (status_ (fsq w))) ++ extra).
Proof.
  destruct (is_public s) eqn:Hpublic.
  - destruct (public_appends_only s w Hpublic)
      as (Hd & Hr & Hf & Hs & Ht & Hc & [extra Hq]).
    repeat split; auto.
    + exists extra. rewrite Hc, Hq, app_assoc. reflexivity.
    + exists extra. exact Hq.
  - destruct s as [message now|force| | | |processor_ now];
      try discriminate; simpl.
    + (* the startup scan *)
      repeat split; auto; discriminate.
    + (* a round of the worker *)
      destruct (WorkerRound_cases processor_ now w)
        as [[_ ->]|(file & rest & Hrun & Hq & ->)].
      * repeat split; auto; try discriminate.
        exists []. rewrite app_nil_r. reflexivity.
      * simpl. rewrite Hq, processor_calls_app. simpl.
        repeat split; auto; try discriminate.
        exists []. rewrite app_nil_r, <- app_assoc. reflexivity.
Qed.

End StepFacts.

Section RunFacts.

Context `{cfg : CONFIG}.

Lemma run_snoc (l : list Step) (s : Step) (w : World) :
  run (l ++ [s]) w = step s (run l w).
Proof. unfold run. rewrite foldl_app. reflexivity. Qed.

Lemma public_is_not_startup (s : Step) :
  is_public s = true -> is_startup s = false.
Proof. destruct s; simpl; congruence. Qed.

(** Public calls leave the calls of the processor as they are and add to
    the queue at its back only. *)
Lemma run_public (l : list Step) (w : World) :
  Forall (fun s => is_public s = true) l ->
  processor_calls (events (run l w)) = processor_calls (events w)
  /\ exists extra,
      queue (finalized (status_ (fsq (run l w))))
      = queue (finalized (status_ (fsq w))) ++ extra.
Proof.
  induction l as [|s l IH] using rev_ind; intros Hpublic.
  - split; [reflexivity|]. exists []. rewrite app_nil_r. reflexivity.
  - apply Forall_app in Hpublic as [Hl Hs].
    apply (proj1 (Forall_singleton _ _)) in Hs.
    destruct (IH Hl) as [Hcalls [extra Hq]].
    destruct (step_effect s (run l w))
      as (_ & _ & _ & _ & _ & _ & Hstep).
    destruct (Hstep Hs) as [Hcalls' [extra' Hq']].
    rewrite run_snoc. split; [congruence|].
    exists (extra ++ extra'). rewrite Hq', Hq, app_assoc. reflexivity.
Qed.

(** X9. Nothing clears a flag and nothing moves the engine.  Over every
    series of steps of the users and of the worker, in any order, the
    working directory stays the same, and [status_ready_],
    [force_processing_] and the shutdown flag stay set once they are
    set. *)
Theorem run_flags_latch (l : list Step) (w : World) :
  working_directory_ (fsq (run l w)) = working_directory_ (fsq w)
  /\ (status_ready_ (fsq w) = true -> status_ready_ (fsq (run l w)) = true)
  /\ (force_processing_ (fsq w) = true ->
      force_processing_ (fsq (run l w)) = true)
  /\ (force_worker_thread_shutdown_ (fsq w) = true ->
      force_worker_thread_shutdown_ (fsq (run l w)) = true).
Proof.
  induction l as [|s l IH] using rev_ind.
  - auto.
  - destruct IH as (Hdir & Hready & Hforce & Hdown).
    destruct (step_effect s (run l w))
      as (Hdir' & Hready' & Hforce' & Hdown' & _).
    rewrite run_snoc. split; [congruence|]. auto.
Qed.

(** X10. Only the startup scan writes [total_size].  Over every series of
    steps without a startup scan, in any order (pushes, forced
    processing, finalizations, rounds of the worker, removal of the files,
    the destructor), [total_size] keeps the value it had. *)
Theorem total_size_written_by_startup_only (l : list Step) (w : World) :
  Forall (fun s => is_startup s = false) l ->
  total_size (finalized (status_ (fsq (run l w))))
  = total_size (finalized (status_ (fsq w))).
Proof.
  induction l as [|s l IH] using rev_ind; intros Hl.
  - reflexivity.
  - apply Forall_app in Hl as [Hl Hs]. apply (proj1 (Forall_singleton _ _)) in Hs.
    destruct (step_effect s (run l w)) as (_ & _ & _ & _ & Htotal & _).
    rewrite run_snoc, (Htotal Hs). apply IH, Hl.
Qed.

(** X11. Delivery follows the order of the queue.  Over every series of
    steps without a startup scan, in any order, the files handed to the
    processor so far followed by the files still queued are what they
    were before, with the files finalized since then behind them: no file
    is handed over before one that was queued ahead of it, none is dropped
    from the queue without being handed over, and none is handed over
    twice. *)
Theorem delivered_then_queued_grows_at_the_back (l : list Step) (w : World) :
  Forall (fun s => is_startup s = false) l ->
  exists extra,
    processor_calls (events (run l w))
      ++ queue (finalized (status_ (fsq (run l w))))
    = (processor_calls (events w) ++ queue (finalized (status_ (fsq w))))
        ++ extra.
Proof.
  induction l as [|s l IH] using rev_ind; intros Hl.
  - exists []. rewrite app_nil_r. reflexivity.
  - apply Forall_app in Hl as [Hl Hs]. apply (proj1 (Forall_singleton _ _)) in Hs.
    destruct (IH Hl) as [extra Hextra].
    destruct (step_effect s (run l w)) as (_ & _ & _ & _ & _ & Hfifo & _).
    destruct (Hfifo Hs) as [extra' Hextra'].
    exists (extra ++ extra'). rewrite run_snoc, Hextra', Hextra.
    rewrite <- !app_assoc. reflexivity.
Qed.

(** X12. The assertion of the worker holds.  Between the moment the
    worker copies the head of the queue and the moment it pops it, the
    users may push, force the processing, remove the files or destroy the
    object, in any number and order: the head of the queue is still the
    file the worker copied when it takes the lock again, so the assertion
    passes and the pop goes through.  With no call in between this is the
    uninterrupted round. *)
Theorem worker_assertion_holds
        (processor_ : T_PROCESSOR) (now : Z) (l : list Step) (w : World)
        (next_file : FileInfo) (result : FileProcessingResult) :
  head (queue (finalized (status_ (fsq w)))) = Some next_file ->
  Forall (fun s => is_public s = true) l ->
  exists w',
    WorkerApply result next_file
                (run l (WorkerCall processor_ next_file now w).2)
    = Some w'
    /\ exists extra,
        queue (finalized (status_ (fsq w')))
        = tail (queue (finalized (status_ (fsq w)))) ++ extra.
Proof.
  intros Hhead Hpublic.
  set (w1 := (WorkerCall processor_ next_file now w).2).
  destruct (run_public l w1 Hpublic) as [_ [extra Hq]].
  change (queue (finalized (status_ (fsq w1))))
    with (queue (finalized (status_ (fsq w)))) in Hq.
  destruct (queue (finalized (status_ (fsq w)))) as [|file rest] eqn:Hw;
    [discriminate|].
  injection Hhead as ->.
  unfold WorkerApply. rewrite Hq. simpl.
  destruct (decide (next_file = next_file)) as [_|Hne]; [|contradiction].
  eexists. split; [reflexivity|]. exists extra. reflexivity.
Qed.

End RunFacts.

(** A push, a forced finalization and a round of the worker. *)
Lemma total_size_written_by_startup_only_witness :
  Forall (fun s => is_startup (cfg := MockConfig) s = false)
         [StepPushMessage (cfg := MockConfig) "foo" 1001;
          StepForceProcessing true;
          StepWorkerRound MockProcessor 1010]
  /\ total_size
       (finalized
          (status_
             (fsq (run (cfg := MockConfig)
                     [StepPushMessage (cfg := MockConfig) "foo" 1001;
                      StepForceProcessing true;
                      StepWorkerRound MockProcessor 1010]
                     (Scenario.started Scenario.one_finalized)))))
     = total_size
         (finalized (status_ (fsq (Scenario.started Scenario.one_finalized)))).
Proof.
  assert (H : Forall (fun s => is_startup (cfg := MockConfig) s = false)
                [StepPushMessage (cfg := MockConfig) "foo" 1001;
                 StepForceProcessing true;
                 StepWorkerRound MockProcessor 1010])
    by (repeat constructor).
  split; [exact H|].
  exact (total_size_written_by_startup_only (cfg := MockConfig) _
           (Scenario.started Scenario.one_finalized) H).
Defined.

(** A round of the worker, a push, a forced finalization and two more
    rounds, on the two files found at startup. *)
Lemma delivered_then_queued_grows_at_the_back_witness :
  Forall (fun s => is_startup (cfg := MockConfig) s = false)
         [StepWorkerRound MockProcessor 1000;
          StepPushMessage (cfg := MockConfig) "foo" 1001;
          StepForceProcessing true;
          StepWorkerRound MockProcessor 1010;
          StepWorkerRound MockProcessor 1011]
  /\ exists extra,
      processor_calls
        (events (run (cfg := MockConfig)
                   [StepWorkerRound MockProcessor 1000;
                    StepPushMessage (cfg := MockConfig) "foo" 1001;
                    StepForceProcessing true;
                    StepWorkerRound MockProcessor 1010;
                    StepWorkerRound MockProcessor 1011]
                   (Scenario.started Scenario.two_finalized)))
        ++ queue
             (finalized
                (status_
                   (fsq (run (cfg := MockConfig)
                           [StepWorkerRound MockProcessor 1000;
                            StepPushMessage (cfg := MockConfig) "foo" 1001;
                            StepForceProcessing true;
                            StepWorkerRound MockProcessor 1010;
                            StepWorkerRound MockProcessor 1011]
                           (Scenario.started Scenario.two_finalized)))))
      = (processor_calls (events (Scenario.started Scenario.two_finalized))
           ++ queue (finalized
                       (status_ (fsq (Scenario.started Scenario.two_finalized)))))
          ++ extra.
Proof.
  assert (H : Forall (fun s => is_startup (cfg := MockConfig) s = false)
                [StepWorkerRound MockProcessor 1000;
                 StepPushMessage (cfg := MockConfig) "foo" 1001;
                 StepForceProcessing true;
                 StepWorkerRound MockProcessor 1010;
                 StepWorkerRound MockProcessor 1011])
    by (repeat constructor).
  split; [exact H|].
  exact (delivered_then_queued_grows_at_the_back (cfg := MockConfig) _
           (Scenario.started Scenario.two_finalized) H).
Defined.

(** A push and a forced finalization while the processor works on the
    first of the two files found at startup. *)
Lemma worker_assertion_holds_witness :
  head (queue (finalized (status_ (fsq (Scenario.started Scenario.two_finalized)))))
  = Some Scenario.file1
  /\ Forall (fun s => is_public (cfg := MockConfig) s = true)
            [StepPushMessage (cfg := MockConfig) "foo" 1001;
             StepForceProcessing true]
  /\ exists w',
      WorkerApply Success Scenario.file1
        (run (cfg := MockConfig)
             [StepPushMessage (cfg := MockConfig) "foo" 1001;
              StepForceProcessing true]
             (WorkerCall MockProcessor Scenario.file1 1000
                         (Scenario.started Scenario.two_finalized)).2)
      = Some w'.
Proof.
  assert (H : Forall (fun s => is_public (cfg := MockConfig) s = true)
                [StepPushMessage (cfg := MockConfig) "foo" 1001;
                 StepForceProcessing true])
    by (repeat constructor).
  split; [reflexivity|]. split; [exact H|].
  destruct (worker_assertion_holds (cfg := MockConfig) MockProcessor 1000 _
              (Scenario.started Scenario.two_finalized)
              Scenario.file1 Success eq_refl H)
    as (w' & Happly & _).
  exists w'. exact Happly.
Defined.

(** ** What the object keeps true of itself *)

Section Consistency.

Context `{cfg : CONFIG}.







(** X14. Finalizing twice is finalizing once: after [FinalizeCurrentFile]
    no file is open, and a second call changes nothing; on an object with
    no open file the first call changes nothing either. *)
Theorem FinalizeCurrentFile_idempotent (w : World) :
  current_file_ (fsq (FinalizeCurrentFile w)) = None
  /\ FinalizeCurrentFile (FinalizeCurrentFile w) = FinalizeCurrentFile w
  /\ FinalizeCurrentFile_locked (FinalizeCurrentFile w) = FinalizeCurrentFile w
  /\ (current_file_ (fsq w) = None -> FinalizeCurrentFile w = w).
Proof.
  assert (Hclosed : current_file_ (fsq (FinalizeCurrentFile w)) = None).
  { unfold FinalizeCurrentFile, FinalizeCurrentFile_locked.
    destruct (current_file_ (fsq w)) eqn:Hp; [reflexivity|exact Hp]. }
  split; [exact Hclosed|]. split; [|split].
  - unfold FinalizeCurrentFile at 1. rewrite Hclosed. reflexivity.
  - unfold FinalizeCurrentFile_locked at 1. rewrite Hclosed. reflexivity.
  - intros Hnone. unfold FinalizeCurrentFile. rewrite Hnone. reflexivity.
Qed.

End Consistency.

(** ** Removal, restart and delivery *)

Lemma remove_files_lookup_ne (l : list FileInfo) (d : gmap string string)
      (p : string) :
  Forall (fun file => full_path_name file <> p) l ->
  remove_files l d !! p = d !! p.
Proof.
  revert d. induction l as [|file l IH]; intros d Hl; simpl; [reflexivity|].
  apply Forall_cons in Hl as [Hfile Hl].
  rewrite (IH _ Hl). unfold FileSystem.RemoveFile.
  apply lookup_delete_ne. exact Hfile.
Qed.

Lemma RenameFile_lookup (src dst contents : string) (d : gmap string string) :
  d !! src = Some contents ->
  FileSystem.RenameFile src dst d !! dst = Some contents.
Proof.
  intros Hsrc. unfold FileSystem.RenameFile. rewrite Hsrc.
  apply lookup_insert_eq.
Qed.

Section RemovalFacts.

Context `{cfg : CONFIG}.

(** X15. After [RemoveAllFSQFiles] a scan of the working directory finds
    no finalized and no current file, so an engine started on it begins
    with the empty status; and a file whose name parses as neither, or
    that lies elsewhere, is left on disk as it was. *)
Theorem RemoveAllFSQFiles_leaves_nothing_to_scan (w : World) :
  let w' := RemoveAllFSQFiles w in
  ScanDir (ParseFileName finalized_naming) w' = []
  /\ ScanDir (ParseFileName current) w' = []
  /\ (forall wakeups,
        GetQueueStatus
          (fsq (WorkerStartup
                  (mkWorld (FSQ_new (working_directory_ (fsq w))) (disk w') [])))
          wakeups
        = Returns empty_status)
  /\ (forall p,
        (forall base,
            p = FileSystem.JoinPath (working_directory_ (fsq w)) base ->
            ParseFileName finalized_naming base = None
            /\ ParseFileName current base = None) ->
        disk w' !! p = disk w !! p).
Proof.
  intros w'.
  set (d1 := remove_files (ScanDir (ParseFileName finalized_naming) w) (disk w)).
  set (w1 := mkWorld (fsq w) d1 (events w)).
  assert (Hd2 : disk w'
                = remove_files (ScanDir (ParseFileName current) w1) d1)
    by reflexivity.
  assert (Hsub2 : disk w' ⊆ d1) by (rewrite Hd2; apply remove_files_subseteq).
  assert (Hsub1 : d1 ⊆ disk w) by apply remove_files_subseteq.
  assert (Hfin : ScanDir (ParseFileName finalized_naming) w' = []).
  { apply elem_of_nil_inv. intros info Hin.
    apply ScanDir_entry in Hin as (Hslash & [c Hc] & Hf & Hpath & _).
    change (working_directory_ (fsq w')) with (working_directory_ (fsq w))
      in Hc, Hpath.
    assert (Hw : disk w !! FileSystem.JoinPath (working_directory_ (fsq w))
                                               (name info) = Some c).
    { eapply lookup_weaken; [|exact Hsub1].
      eapply lookup_weaken; [exact Hc|exact Hsub2]. }
    pose proof (ScanDir_finds (ParseFileName finalized_naming) w (name info)
                              (timestamp info) Hslash (ex_intro _ c Hw) Hf)
      as Hfound.
    apply (remove_files_lookup _ (disk w)) in Hfound. simpl in Hfound.
    fold d1 in Hfound.
    assert (Hgone : disk w' !! FileSystem.JoinPath (working_directory_ (fsq w))
                                                   (name info) = None)
      by (eapply lookup_weaken_None; [exact Hfound|exact Hsub2]).
    congruence. }
  assert (Hcur : ScanDir (ParseFileName current) w' = []).
  { apply elem_of_nil_inv. intros info Hin.
    apply ScanDir_entry in Hin as (Hslash & [c Hc] & Hf & Hpath & _).
    change (working_directory_ (fsq w')) with (working_directory_ (fsq w1))
      in Hc, Hpath.
    assert (H1 : disk w1 !! FileSystem.JoinPath (working_directory_ (fsq w1))
                                                (name info) = Some c)
      by (eapply lookup_weaken; [exact Hc|exact Hsub2]).
    pose proof (ScanDir_finds (ParseFileName current) w1 (name info)
                              (timestamp info) Hslash (ex_intro _ c H1) Hf)
      as Hfound.
    apply (remove_files_lookup _ d1) in Hfound. simpl in Hfound.
    rewrite <- Hd2 in Hfound.
    change (working_directory_ (fsq w1)) with (working_directory_ (fsq w)) in Hc.
    congruence. }
  split; [exact Hfin|]. split; [exact Hcur|]. split.
  - intros wakeups.
    set (w0 := mkWorld (FSQ_new (working_directory_ (fsq w))) (disk w') []).
    assert (Hscan : ScanDir (ParseFileName finalized_naming) w0 = [])
      by exact Hfin.
    rewrite GetQueueStatus_ready by reflexivity. f_equal.
    unfold WorkerStartup. rewrite Hscan. reflexivity.
  - intros p Hother. rewrite Hd2.
    rewrite remove_files_lookup_ne.
    + apply remove_files_lookup_ne.
      apply Forall_forall. intros info Hin Hp.
      apply ScanDir_entry in Hin as (_ & _ & Hf & Hpath & _).
      destruct (Hother (name info)) as [Hnone _]; congruence.
    + apply Forall_forall. intros info Hin Hp.
      apply ScanDir_entry in Hin as (_ & _ & Hf & Hpath & _).
      destruct (Hother (name info)) as [_ Hnone]; [|congruence].
      rewrite <- Hp, Hpath. reflexivity.
Qed.

(** X16. A finalized file is found again after a restart.  When the open
    current file is on disk and the finalized name generated for its
    timestamp is a plain file name that parses back to that timestamp,
    then after [FinalizeCurrentFile] the contents are on disk under the
    finalized name, and the startup scan of a new engine on the same
    working directory queues the file under that name and timestamp, with
    the size the file has on disk. *)
Theorem finalized_file_survives_restart (w : World) (p contents : string) :
  current_file_ (fsq w) = Some p ->
  disk w !! current_file_name_ (fsq w) = Some contents ->
  ParseFileName finalized_naming (name (finalized_file_info (fsq w)))
  = Some (timestamp (finalized_file_info (fsq w))) ->
  FileSystem.has_slash (name (finalized_file_info (fsq w))) = false ->
  disk (FinalizeCurrentFile_locked w)
    !! full_path_name (finalized_file_info (fsq w)) = Some contents
  /\ mkFileInfo (name (finalized_file_info (fsq w)))
                (full_path_name (finalized_file_info (fsq w)))
                (timestamp (finalized_file_info (fsq w)))
                (wrap64 (Z.of_nat (String.length contents)))
     ∈ queue (finalized (status_ (fsq
         (WorkerStartup
            (mkWorld (FSQ_new (working_directory_ (fsq w)))
                     (disk (FinalizeCurrentFile_locked w)) []))))).
Proof.
  intros Hp Hfile Hparse Hslash.
  assert (Hdisk : disk (FinalizeCurrentFile_locked w)
                    !! full_path_name (finalized_file_info (fsq w))
                  = Some contents).
  { unfold FinalizeCurrentFile_locked. rewrite Hp. simpl.
    apply RenameFile_lookup, Hfile. }
  split; [exact Hdisk|].
  set (w0 := mkWorld (FSQ_new (working_directory_ (fsq w)))
                     (disk (FinalizeCurrentFile_locked w)) []).
  change (queue (finalized (status_ (fsq (WorkerStartup w0)))))
    with (ScanDir (ParseFileName finalized_naming) w0).
  pose proof (ScanDir_finds (ParseFileName finalized_naming) w0
                (name (finalized_file_info (fsq w)))
                (timestamp (finalized_file_info (fsq w)))
                Hslash (ex_intro _ contents Hdisk) Hparse) as Hfound.
  unfold FileSystem.GetFileSize in Hfound.
  change (disk w0) with (disk (FinalizeCurrentFile_locked w)) in Hfound.
  change (FileSystem.JoinPath (working_directory_ (fsq w0))
                              (name (finalized_file_info (fsq w))))
    with (full_path_name (finalized_file_info (fsq w))) in Hfound.
  rewrite Hdisk in Hfound. exact Hfound.
Qed.


(** X18. [GetQueueStatus] returns the status of the first state, among
    the one it enters in and those it wakes up in, that has
    [status_ready_] set, and it is still waiting exactly when none of
    them has. *)
Theorem GetQueueStatus_first_ready
        (q : FSQ) (wakeups : list FSQ) (s : QueueStatus) :
  (GetQueueStatus q wakeups = Returns s
   <-> exists before q' after,
       q :: wakeups = before ++ q' :: after
       /\ Forall (fun x => status_ready_ x = false) before
       /\ status_ready_ q' = true
       /\ s = status_ q')
  /\ (GetQueueStatus q wakeups = Waits
      <-> Forall (fun x => status_ready_ x = false) (q :: wakeups)).
Proof.
  revert q. induction wakeups as [|q1 l IH]; intros q.
  - simpl. destruct (status_ready_ q) eqn:Hq; split; split.
    + intros [= <-]. exists [], q, []. auto.
    + intros (before & q' & after & Heq & Hbefore & Hready & ->).
      destruct before as [|x before].
      * injection Heq as <- _. reflexivity.
      * injection Heq as <- Heq. destruct before; discriminate.
    + discriminate.
    + intros Hall. apply Forall_cons in Hall as [Hfalse _]. congruence.
    + discriminate.
    + intros (before & q' & after & Heq & Hbefore & Hready & ->).
      destruct before as [|x before].
      * injection Heq as <- _. congruence.
      * injection Heq as <- Heq. destruct before; discriminate.
    + intros _. repeat constructor. exact Hq.
    + reflexivity.
  - destruct (IH q1) as [IHr IHw].
    change (GetQueueStatus q (q1 :: l))
      with (if status_ready_ q then Returns (status_ q)
            else GetQueueStatus q1 l).
    destruct (status_ready_ q) eqn:Hq; split; split.
    + intros [= <-]. exists [], q, (q1 :: l). auto.
    + intros (before & q' & after & Heq & Hbefore & Hready & ->).
      destruct before as [|x before].
      * injection Heq as <- _. reflexivity.
      * injection Heq as <- Heq.
        apply Forall_cons in Hbefore as [Hx _]. congruence.
    + discriminate.
    + intros Hall. apply Forall_cons in Hall as [Hfalse _]. congruence.
    + intros Hret. apply IHr in Hret
        as (before & q' & after & Heq & Hbefore & Hready & ->).
      exists (q :: before), q', after. rewrite Heq. auto.
    + intros (before & q' & after & Heq & Hbefore & Hready & ->).
      destruct before as [|x before].
      * injection Heq as <- _. congruence.
      * injection Heq as <- Heq.
        apply Forall_cons in Hbefore as [_ Hbefore].
        apply IHr. exists before, q', after. auto.
    + intros Hwait. apply IHw in Hwait. constructor; assumption.
    + intros Hall. apply Forall_cons in Hall as [_ Hall]. apply IHw, Hall.
Qed.

End RemovalFacts.

(** The current file of the smoke test, finalized and found again. *)
Lemma finalized_file_survives_restart_witness :
  current_file_ (fsq Scenario.smoke_test)
  = Some "build/current-00000000000000001001.bin"
  /\ exists contents,
      disk Scenario.smoke_test !! current_file_name_ (fsq Scenario.smoke_test)
      = Some contents
      /\ disk (FinalizeCurrentFile_locked (cfg := MockConfig) Scenario.smoke_test)
           !! "build/finalized-00000000000000001001.bin"
         = Some contents.
Proof.
  split; [reflexivity|].
  exists ("foo" +:+ String "010"%char
            ("bar" +:+ String "010"%char ("baz" +:+ String "010"%char ""))).
  assert (H : disk Scenario.smoke_test
                !! current_file_name_ (fsq Scenario.smoke_test)
              = Some ("foo" +:+ String "010"%char
                        ("bar" +:+ String "010"%char
                           ("baz" +:+ String "010"%char ""))))
    by (vm_compute; reflexivity).
  split; [exact H|].
  exact (proj1 (finalized_file_survives_restart (cfg := MockConfig)
                  Scenario.smoke_test
                  "build/current-00000000000000001001.bin" _
                  eq_refl H eq_refl eq_refl)).
Defined.

